(** * arr-llm-release-picker: the release selection decision engine

    A shallow embedding of the Python sources under [app/]:

    - [config.py]   the prompt table and the loop of [load_config] that fills it,
    - [prompts.py]  [get_system_prompt_for_profile] and the age bucket of
                    [format_releases_for_ai],
    - [llm.py]      [ask_ai_for_selection], from the decoded answer of the
                    model endpoint onwards,
    - [routes.py]   the two webhook handlers [webhook_radarr_override] and
                    [webhook_sonarr_override].

    and, around them,

    - [config.py]   [load_config] on an environment and a disk, and
                    [reload_prompts],
    - [prompts.py]  the text of [format_releases_for_ai],
    - [llm.py]      the removal of the code fence around the model's message,
    - [radarr.py], [sonarr.py]  [get_quality_profile_name] and
                    [get_movie_tags] / [get_series_tags] on the answers of
                    the manager,
    - [notifications.py]  [send_notification].

    Conventions.  A Python [str] is a [string] whose characters are the code
    points U+0000 to U+00FF.  A Python [int] is a [Z].  A finite Python [float]
    is a dyadic number [m * 2^e].  A payload object is a record; a field read
    with [dict.get] has an [option] type, [None] standing for an absent key.
    Calls that leave the process (manager API, model endpoint, notification)
    are recorded as a trace of [event]s next to the returned value; what
    they answer is given by a [World].

    The text that [format_releases_for_ai] and the prompt template render is
    the body of the request to the model and is not part of the embedding
    of the handlers: a [ModelCall] carries the values the text is made of,
    and [format_releases_for_ai] is embedded on its own.  Rendering happens
    before the [try] block and raises [OverflowError] on a size or an age
    beyond the range of a float.  [ask_ai_for_selection] and
    [webhook_override] are the handlers on the payloads on which it does
    not raise; [Full.ask_ai_for_selection] and [Full.webhook_override] are
    the handlers on every payload, with rendering, [size_gb] and the
    exception that leaves them, and [full_webhook_override_cases] relates
    the two. *)

From Stdlib Require Import ZArith Lia Ascii String List Bool.
From Stdlib Require Floats.SpecFloat.
From stdpp Require Import base option list strings gmap pretty.

Local Open Scope Z_scope.

(* ===================================================================== *)
(** ** Python strings: [str.lower], [str.strip], [in]                    *)
(* ===================================================================== *)

Module PyStr.

(** Code point of a character. *)
Definition code (c : ascii) : N := N_of_ascii c.

(** [str.isupper] on U+0000..U+00FF: A-Z, and the Latin-1 capitals
    U+00C0..U+00DE without the multiplication sign U+00D7. *)
Definition is_upper (c : ascii) : bool :=
  let n := code c in
  ((65 <=? n) && (n <=? 90) || (192 <=? n) && (n <=? 222) && negb (n =? 215))%N.

(** [str.lower] on one character: every capital of the range has its
    small letter 32 code points further. *)
Definition lower_char (c : ascii) : ascii :=
  if is_upper c then ascii_of_N (code c + 32) else c.

(** [str.lower]. *)
Fixpoint lower (s : string) : string :=
  match s with
  | EmptyString => EmptyString
  | String c s' => String (lower_char c) (lower s')
  end.

(** [str.isspace] on one character: TAB, LF, VT, FF, CR, FS, GS, RS, US,
    SPACE, NEL (U+0085) and NBSP (U+00A0). *)
Definition is_space (c : ascii) : bool :=
  let n := code c in
  ((9 <=? n) && (n <=? 13) || (28 <=? n) && (n <=? 32) || (n =? 133) || (n =? 160))%N.

Fixpoint lstrip (s : string) : string :=
  match s with
  | EmptyString => EmptyString
  | String c s' => if is_space c then lstrip s' else s
  end.

Fixpoint rstrip (s : string) : string :=
  match s with
  | EmptyString => EmptyString
  | String c s' =>
      match rstrip s' with
      | EmptyString => if is_space c then EmptyString else String c EmptyString
      | t => String c t
      end
  end.

(** [str.strip()] with no argument. *)
Definition strip (s : string) : string := rstrip (lstrip s).

(** [needle in haystack] on strings. *)
Fixpoint contains (needle haystack : string) : bool :=
  String.prefix needle haystack ||
  match haystack with
  | EmptyString => false
  | String _ rest => contains needle rest
  end.

(** Two characters are the same letter up to case. *)
Definition case_variant (c d : ascii) : Prop :=
  c = d \/ lower_char c = d \/ c = lower_char d.

(** Two strings differ at most in the case of their letters. *)
Inductive differ_only_in_case : string -> string -> Prop :=
| doic_nil : differ_only_in_case EmptyString EmptyString
| doic_cons c d s t :
    case_variant c d -> differ_only_in_case s t ->
    differ_only_in_case (String c s) (String d t).

End PyStr.

(* ===================================================================== *)
(** ** config.py: the prompt table                                       *)
(* ===================================================================== *)

(** [RadarrConfig] / [SonarrConfig]. *)
Record ArrConfig := { url : string; api_key : string }.

(** [Config], with the fields the decision engine reads. *)
Record Config := {
  radarr : option ArrConfig;
  sonarr : option ArrConfig;
  service_prompts : gmap string (gmap string string);
  dry_run : bool;
  skip_tag : string
}.

(** One entry of [os.listdir(service_dir)]: its name, whether it is a
    directory, and the content of its [system.txt] when that file exists. *)
Record DirEntry := {
  entry_name : string;
  entry_isdir : bool;
  entry_system_txt : option string
}.

(** The prompts directory: [None] where [os.path.isdir] answers no. *)
Record PromptsDir := {
  radarr_dir : option (list DirEntry);
  sonarr_dir : option (list DirEntry)
}.

(** [_load_system_prompt]: the stripped file, [None] if missing or empty. *)
Definition _load_system_prompt (d : DirEntry) : option string :=
  match entry_system_txt d with
  | None => None
  | Some content =>
      let system := PyStr.strip content in
      if decide (system = EmptyString) then None else Some system
  end.

(** Body of [for profile in os.listdir(service_dir)]. *)
Definition load_profile (acc : gmap string string) (d : DirEntry)
  : gmap string string :=
  if entry_isdir d then
    match _load_system_prompt d with
    | Some system_prompt => <[PyStr.lower (entry_name d) := system_prompt]> acc
    | None => acc
    end
  else acc.

Definition load_service (service_dir : option (list DirEntry))
  : gmap string string :=
  match service_dir with
  | Some entries => foldl load_profile ∅ entries
  | None => ∅
  end.

(** The loop of [load_config] (and of [reload_prompts]) that builds
    [service_prompts], starting from [{'radarr': {}, 'sonarr': {}}]. *)
Definition load_service_prompts (prompts_dir : option PromptsDir)
  : gmap string (gmap string string) :=
  match prompts_dir with
  | Some d =>
      <["sonarr" := load_service (sonarr_dir d)]>
        (<["radarr" := load_service (radarr_dir d)]> ∅)
  | None => <["sonarr" := ∅]> (<["radarr" := ∅]> ∅)
  end.

(* ===================================================================== *)
(** ** prompts.py: prompt resolution                                     *)
(* ===================================================================== *)

(** [get_system_prompt_for_profile]. *)
Definition get_system_prompt_for_profile
    (cfg : Config) (service profile_name : string) : option string :=
  let normalized_service := PyStr.strip (PyStr.lower service) in
  let normalized_profile := PyStr.strip (PyStr.lower profile_name) in
  let prompts := default ∅ (service_prompts cfg !! normalized_service) in
  prompts !! normalized_profile.

(* ===================================================================== *)
(** ** Python numbers: [int], finite [float], [/] and [int()]            *)
(* ===================================================================== *)

Module PyNum.

(** A JSON number after decoding: an [int], or a finite binary64 [float]
    given by its value [m * 2^e]. *)
Inductive num :=
| PyInt (n : Z)
| PyFloat (m e : Z).

(** A float is a binary64 number: 53 bits of mantissa, exponent in range. *)
Definition binary64 (x : num) : Prop :=
  match x with
  | PyInt _ => True
  | PyFloat m e => Z.abs m < 2 ^ 53 /\ -1074 <= e <= 971
  end.

(** The exact value of a number as the fraction [numer / denom]. *)
Definition numer (x : num) : Z :=
  match x with
  | PyInt n => n
  | PyFloat m e => if 0 <=? e then m * 2 ^ e else m
  end.

Definition denom (x : num) : Z :=
  match x with
  | PyInt _ => 1
  | PyFloat _ e => if 0 <=? e then 1 else 2 ^ (- e)
  end.

(** [x < c] for an [int] literal [c]: Python compares the exact values. *)
Definition lt_int (x : num) (c : Z) : bool := numer x <? c * denom x.

(** [int(x)]: truncation toward zero. *)
Definition int (x : num) : Z := Z.quot (numer x) (denom x).

(** Quotient [p / q] rounded to the nearest integer, ties to even
    ([0 <= p], [0 < q]). *)
Definition rne_div (p q : Z) : Z :=
  let k := p / q in
  let r := p mod q in
  if 2 * r <? q then k
  else if q <? 2 * r then k + 1
  else if Z.even k then k else k + 1.

(** The exponent [E] with [2^E <= p/q < 2^(E+1)] ([0 < p], [0 < q]). *)
Definition flog2 (p q : Z) : Z :=
  if q <=? p then Z.log2 (p / q) else - Z.log2_up ((q + p - 1) / p).

(** The binary64 number nearest to the fraction [p / q] ([0 < p],
    [0 < q]), ties to even; [None] when it exceeds the largest float. *)
Definition round_binary64 (p q : Z) : option num :=
  let e := Z.max (flog2 p q - 52) (-1074) in
  let m := if 0 <=? e then rne_div p (q * 2 ^ e) else rne_div (p * 2 ^ (- e)) q in
  if (971 <? e) || (e =? 971) && (2 ^ 53 <=? m) then None
  else Some (PyFloat m e).

Definition neg (x : num) : num :=
  match x with
  | PyInt n => PyInt (- n)
  | PyFloat m e => PyFloat (- m) e
  end.

(** [x / d] for a positive [int] literal [d]: true division, the
    correctly rounded quotient of the exact values.  [None] is the
    [OverflowError] of a quotient too large for a float. *)
Definition truediv (x : num) (d : positive) : option num :=
  let p := numer x in
  let q := denom x * Z.pos d in
  if p =? 0 then Some (PyFloat 0 0)
  else if 0 <? p then round_binary64 p q
  else neg <$> round_binary64 (- p) q.

(** [str(n)] for an [int]. *)
Definition str_int (n : Z) : string := pretty n.

End PyNum.

(* ===================================================================== *)
(** ** prompts.py: the age bucket of [format_releases_for_ai]            *)
(* ===================================================================== *)

(** The [# Format age] block of [format_releases_for_ai]:
    [age_str] computed from [age_minutes]. *)
Definition format_age (age_minutes : PyNum.num) : option string :=
  if PyNum.lt_int age_minutes 60 then
    Some (PyNum.str_int (PyNum.int age_minutes) +:+ "m")
  else if PyNum.lt_int age_minutes 1440 then
    q ← PyNum.truediv age_minutes 60;
    Some (PyNum.str_int (PyNum.int q) +:+ "h")
  else
    q ← PyNum.truediv age_minutes 1440;
    Some (PyNum.str_int (PyNum.int q) +:+ "d").

(** The exact quotient of [x] by [d], integer-truncated ([0 <= x], [0 < d]). *)
Definition truncated_quotient (x : PyNum.num) (d : Z) : Z :=
  PyNum.numer x / (PyNum.denom x * d).

(** The age as the specification words it: minutes below an hour, whole
    hours below a day, whole days from then on, each truncated. *)
Definition age_bucket (x : PyNum.num) : string :=
  if PyNum.lt_int x 60 then PyNum.str_int (truncated_quotient x 1) +:+ "m"
  else if PyNum.lt_int x 1440 then PyNum.str_int (truncated_quotient x 60) +:+ "h"
  else PyNum.str_int (truncated_quotient x 1440) +:+ "d".

(* ===================================================================== *)
(** ** Payload, decision and effects                                     *)
(* ===================================================================== *)

(** A value decoded by [json.loads]. *)
#[warnings="-register-all"]
Inductive json :=
| JNull
| JBool (b : bool)
| JInt (n : Z)
| JFloat (m e : Z)
| JStr (s : string)
| JArr (items : list json)
| JObj (members : gmap string json).

(** One element of [payload['releases']]. *)
Record Release := {
  guid : option string;
  title : option string;
  size : option Z;
  quality : option string;
  indexer : option string;
  seeders : option Z;
  customFormatScore : option Z;
  languages : option (list string);
  customFormats : option (list string);
  isSelected : option bool;
  ageMinutes : option PyNum.num;
  indexerFlags : option (list string)
}.

(** [payload['movie']] for Radarr, [payload['series']] for Sonarr. *)
Record Media := {
  media_id : option Z;
  media_title : option string
}.

(** The body of the webhook request. *)
Record Payload := {
  eventType : option string;
  media : option Media;
  releases : list Release
}.

(** The JSON object the handler answers with:
    [{approved, selectedReleaseGuid?, reason}]. *)
Record Decision := {
  approved : bool;
  selectedReleaseGuid : option (option string);
  reason : json
}.

(** Lines 73 and 76-82 of [format_releases_for_ai] for one release:
    [r.get('ageMinutes', 0)], formatted. *)
Definition release_age_str (r : Release) : option string :=
  format_age (default (PyNum.PyInt 0) (ageMinutes r)).

Inductive Service := Radarr | Sonarr.

(** The [service] argument of [ask_ai_for_selection]. *)
Definition service_name (svc : Service) : string :=
  match svc with Radarr => "radarr" | Sonarr => "sonarr" end.

(** The name of the manager in messages. *)
Definition service_label (svc : Service) : string :=
  match svc with Radarr => "Radarr" | Sonarr => "Sonarr" end.

(** [cfg.radarr] or [cfg.sonarr]. *)
Definition arr_config (svc : Service) (cfg : Config) : option ArrConfig :=
  match svc with Radarr => radarr cfg | Sonarr => sonarr cfg end.

(** How the [try] block of [ask_ai_for_selection] ends, up to
    [json.loads(content)]: with an exception, with a [JSONDecodeError], or
    with the decoded content of the model's message. *)
Inductive llm_outcome :=
| Raised (message : string)
| RaisedJSONDecodeError (message : string)
| Decoded (parsed : json).

(** What lies outside the process during one request. *)
Record World := {
  (** the result of [get_movie_tags] / [get_series_tags] *)
  media_tags : Z -> list string;
  (** the result of [get_quality_profile_name] *)
  quality_profile_name : Z -> string;
  (** the end of the exchange with the model endpoint *)
  model_answer : llm_outcome
}.

(** The calls that leave the process.  The override notification keeps its
    [message] by parts (profile, release title, size in bytes, reason). *)
Inductive event :=
| TagsLookup (svc : Service) (id : Z)
| ProfileLookup (svc : Service) (id : Z)
| ModelCall (system_prompt media_title profile_name : string)
            (releases : list Release)
| FailureNotification (title message priority : string) (tags : list string)
| OverrideNotification (title profile_name selected_title : string)
                       (size : Z) (reason : json) (tags : list string).

Definition is_model_call (ev : event) : bool :=
  match ev with ModelCall _ _ _ _ => true | _ => false end.

Definition is_notification (ev : event) : bool :=
  match ev with
  | FailureNotification _ _ _ _ | OverrideNotification _ _ _ _ _ _ => true
  | _ => false
  end.

Definition is_failure_notification (ev : event) : bool :=
  match ev with FailureNotification _ _ _ _ => true | _ => false end.

(** Line feed. *)
Definition LF : string := String "010"%char EmptyString.

(* ===================================================================== *)
(** ** llm.py: [ask_ai_for_selection]                                    *)
(* ===================================================================== *)

(** [type(v).__name__]. *)
Definition type_name (v : json) : string :=
  match v with
  | JNull => "NoneType"
  | JBool _ => "bool"
  | JInt _ => "int"
  | JFloat _ _ => "float"
  | JStr _ => "str"
  | JArr _ => "list"
  | JObj _ => "dict"
  end.

(** [isinstance(v, int)], with the value as an [int]: [bool] is a subclass
    of [int] in Python, [True] counts as 1 and [False] as 0. *)
Definition int_value (v : json) : option Z :=
  match v with
  | JInt n => Some n
  | JBool b => Some (if b then 1 else 0)
  | _ => None
  end.

(** Lines 100-108: from the decoded content to the returned pair. *)
Definition interpret_answer (parsed : json) : option Z * json :=
  match parsed with
  | JObj members =>
      let choice := default JNull (members !! "choice") in
      let reason := default (JStr "No reason provided") (members !! "reason") in
      match int_value choice with
      | Some n => (Some n, reason)
      | None =>
          (None, JStr ("Invalid choice type: <class '" +:+ type_name choice +:+ "'>"))
      end
  | other =>
      (None, JStr ("'" +:+ type_name other +:+ "' object has no attribute 'get'"))
  end.

(** [ask_ai_for_selection]: the returned pair and the calls made.  The
    request is posted exactly when a prompt is configured; [model_answer w]
    is how the [try] block around it ends.  The text of the releases is
    taken as rendered (line 49); [Full.ask_ai_for_selection] below has that
    step and the exception it can raise. *)
Definition ask_ai_for_selection (cfg : Config) (w : World)
    (releases : list Release) (media_title profile_name service : string)
  : (option Z * json) * list event :=
  match get_system_prompt_for_profile cfg service profile_name with
  | None => ((None, JStr "AI bypassed - no prompt for this profile"), [])
  | Some system_prompt =>
      let call := ModelCall system_prompt media_title profile_name releases in
      match model_answer w with
      | Decoded parsed => (interpret_answer parsed, [call])
      | RaisedJSONDecodeError e =>
          ((None, JStr ("Invalid JSON response: " +:+ e)), [call])
      | Raised e => ((None, JStr e), [call])
      end
  end.

(* ===================================================================== *)
(** ** routes.py: the webhook handlers                                   *)
(* ===================================================================== *)

Section Routes.

(** Python's [repr] of a float, a list or a dict, which an f-string
    prints for a reason that is none of [str], [int], [bool], [None]. *)
Variable py_repr : json -> string.

(** [f"{v}"]. *)
Definition py_str (v : json) : string :=
  match v with
  | JStr s => s
  | JNull => "None"
  | JBool true => "True"
  | JBool false => "False"
  | JInt n => PyNum.str_int n
  | other => py_repr other
  end.

(** [jsonify({'approved': True, 'reason': ...}), 200]. *)
Definition respond (reason : json) : Decision * Z :=
  ({| approved := true; selectedReleaseGuid := None; reason := reason |}, 200).

(** [if movie_id:] holds for an id that is present and not 0. *)
Definition truthy_id (movie_id : option Z) : option Z :=
  match movie_id with
  | Some i => if i =? 0 then None else Some i
  | None => None
  end.

(** [r.get('isSelected')] is true. *)
Definition is_default (r : Release) : bool := default false (isSelected r).

(** [next((r for r in releases if r.get('isSelected')), None)]. *)
Definition default_selected (releases : list Release) : option Release :=
  List.find is_default releases.

(** [choice is None and "AI bypassed" in reason]; a reason that comes
    with no choice is always a [str]. *)
Definition is_bypass (choice : option Z) (reason : json) : bool :=
  match choice, reason with
  | None, JStr s => PyStr.contains "AI bypassed" s
  | _, _ => false
  end.

(** [choice is None or choice < 1 or choice > len(releases)]. *)
Definition no_valid_selection (choice : option Z) (releases : list Release) : bool :=
  match choice with
  | None => true
  | Some c => (c <? 1) || (Z.of_nat (length releases) <? c)
  end.

(** [releases[choice - 1]], read once the test above has failed. *)
Definition selected_release (choice : option Z) (releases : list Release)
  : option Release :=
  if no_valid_selection choice releases then None
  else c ← choice; releases !! Z.to_nat (c - 1).

(** The emoji tag of the override notification. *)
Definition override_tag (svc : Service) : string :=
  match svc with Radarr => "movie_camera" | Sonarr => "tv" end.

(** [webhook_radarr_override] and [webhook_sonarr_override]: the two
    handlers differ in the service only.  The result is the pair
    [(jsonify(...), 200)] and the calls made on the way, for a request on
    which [ask_ai_for_selection] returns; [Full.webhook_override] below is
    the handler on every request. *)
Definition webhook_override (svc : Service) (cfg : Config) (w : World)
    (body : option Payload) : (Decision * Z) * list event :=
  match arr_config svc cfg with
  | None => (respond (JStr (service_label svc +:+ " not configured")), [])
  | Some _ =>
  match body with
  | None => (respond (JStr "Empty payload"), [])
  | Some payload =>
  let event_type := default "" (eventType payload) in
  if bool_decide (event_type ≠ "DownloadDecisionOverride") then
    (respond (JStr ("Ignored event type: " +:+ event_type)), [])
  else
  let movie := default {| media_id := None; media_title := None |} (media payload) in
  let movie_id := truthy_id (media_id movie) in
  let movie_title := default "Unknown" (media_title movie) in
  let releases := releases payload in
  if bool_decide (releases = []) then
    (respond (JStr "No releases to evaluate"), [])
  else
  (* Check for skip tag *)
  let tags := from_option (media_tags w) [] movie_id in
  let t_tags := from_option (fun i => [TagsLookup svc i]) [] movie_id in
  if bool_decide (skip_tag cfg ∈ tags) then
    (respond (JStr ("Skipped: tag " +:+ skip_tag cfg +:+ " present")), t_tags)
  else
  (* Get quality profile name *)
  let profile_name := from_option (quality_profile_name w) "unknown" movie_id in
  let t_profile := from_option (fun i => [ProfileLookup svc i]) [] movie_id in
  (* Ask AI to select *)
  let '((choice, reason), t_ai) :=
    ask_ai_for_selection cfg w releases movie_title profile_name (service_name svc) in
  let t := t_tags ++ t_profile ++ t_ai in
  (* No prompts for this profile - let the manager choose normally *)
  if is_bypass choice reason then (respond reason, t)
  else
  match selected_release choice releases with
  | None =>
      (respond (JStr ("AI failed: " +:+ py_str reason +:+ ", using default")),
       t ++ [FailureNotification
               ("AI Warning: " +:+ movie_title)
               ("Selection failed: " +:+ py_str reason +:+ LF +:+
                "Using " +:+ service_label svc +:+ " default")
               "low" ["warning"]])
  | Some selected =>
  let selected_guid := guid selected in
  let selected_title := default "Unknown" (title selected) in
  (* Check if AI chose the same as the manager's default *)
  let is_same_as_default :=
    match default_selected releases with
    | Some d => bool_decide (guid d = selected_guid)
    | None => false
    end in
  if is_same_as_default then
    (respond (JStr ("AI confirms default: " +:+ py_str reason)), t)
  else if dry_run cfg then
    (respond (JStr ("[DRY RUN] Would select: " +:+ selected_title)), t)
  else
    (({| approved := true;
         selectedReleaseGuid := Some selected_guid;
         reason := reason |}, 200),
     t ++ [OverrideNotification
             ("AI Override: " +:+ movie_title)
             profile_name selected_title (default 0 (size selected)) reason
             [override_tag svc]])
  end end end.

Definition webhook_radarr_override := webhook_override Radarr.
Definition webhook_sonarr_override := webhook_override Sonarr.

End Routes.

(* ===================================================================== *)
(** ** What a request is, for the statements below                       *)
(* ===================================================================== *)

(** The media id the handler uses (lines 136-137 and the test [if movie_id]). *)
Definition request_media_id (payload : Payload) : option Z :=
  truthy_id (media_id (default {| media_id := None; media_title := None |}
                               (media payload))).

(** The media title the handler uses (line 138). *)
Definition request_title (payload : Payload) : string :=
  default "Unknown"
    (media_title (default {| media_id := None; media_title := None |}
                          (media payload))).

(** The tags the handler reads (line 151). *)
Definition request_tags (w : World) (payload : Payload) : list string :=
  from_option (media_tags w) [] (request_media_id payload).

(** The quality profile name the handler resolves (line 160). *)
Definition request_profile_name (w : World) (payload : Payload) : string :=
  from_option (quality_profile_name w) "unknown" (request_media_id payload).

(** The manager lookups made before the model is asked. *)
Definition lookups (svc : Service) (payload : Payload) : list event :=
  from_option (fun i => [TagsLookup svc i]) [] (request_media_id payload) ++
  from_option (fun i => [ProfileLookup svc i]) [] (request_media_id payload).

(** The request passes the configuration, payload and event-type checks,
    carries at least one release and is not skip-tagged: the handler gets
    as far as [ask_ai_for_selection]. *)
Definition reaches_ai (svc : Service) (cfg : Config) (w : World)
    (payload : Payload) : Prop :=
  is_Some (arr_config svc cfg) /\
  eventType payload = Some "DownloadDecisionOverride" /\
  releases payload ≠ [] /\
  skip_tag cfg ∉ request_tags w payload.

(** What the handler does once [ask_ai_for_selection] has returned
    [(choice, reason)] after the calls [t] (lines 165-228). *)
Definition conclude (py_repr : json -> string) (svc : Service) (cfg : Config)
    (w : World) (payload : Payload) (choice : option Z) (reason : json)
    (t : list event) : (Decision * Z) * list event :=
  if is_bypass choice reason then (respond reason, t)
  else
    match selected_release choice (releases payload) with
    | None =>
        (respond (JStr ("AI failed: " +:+ py_str py_repr reason +:+ ", using default")),
         t ++ [FailureNotification
                 ("AI Warning: " +:+ request_title payload)
                 ("Selection failed: " +:+ py_str py_repr reason +:+ LF +:+
                  "Using " +:+ service_label svc +:+ " default")
                 "low" ["warning"]])
    | Some selected =>
        if match default_selected (releases payload) with
           | Some d => bool_decide (guid d = guid selected)
           | None => false
           end
        then (respond (JStr ("AI confirms default: " +:+ py_str py_repr reason)), t)
        else if dry_run cfg
        then (respond (JStr ("[DRY RUN] Would select: " +:+
                             default "Unknown" (title selected))), t)
        else
          (({| approved := true;
               selectedReleaseGuid := Some (guid selected);
               reason := reason |}, 200),
           t ++ [OverrideNotification
                   ("AI Override: " +:+ request_title payload)
                   (request_profile_name w payload)
                   (default "Unknown" (title selected))
                   (default 0 (size selected)) reason [override_tag svc]])
    end.


(** [w] with another end of the model exchange. *)
Definition with_answer (a : llm_outcome) (w : World) : World :=
  {| media_tags := media_tags w;
     quality_profile_name := quality_profile_name w;
     model_answer := a |}.

(** [payload] with another release list. *)
Definition with_releases (rs : list Release) (payload : Payload) : Payload :=
  {| eventType := eventType payload; media := media payload; releases := rs |}.

(** The listing of the directory of a service, by its normalized name. *)
Definition service_listing (pd : option PromptsDir) (service : string)
  : option (list DirEntry) :=
  d ← pd;
  if decide (service = "radarr") then radarr_dir d
  else if decide (service = "sonarr") then sonarr_dir d
  else None.

(** The directory entry [e] provides the prompt [p] under the key [key]: it
    is a directory, its [system.txt] holds [p] once stripped, and its name
    in lower case is [key]. *)
Definition provides (e : DirEntry) (key p : string) : Prop :=
  entry_isdir e = true /\ _load_system_prompt e = Some p /\
  PyStr.lower (entry_name e) = key.

(** [d], at position [i], is the first release of [rs] flagged as the
    manager's default. *)
Definition first_flagged (rs : list Release) (i : nat) (d : Release) : Prop :=
  rs !! i = Some d /\ is_default d = true /\
  forall j r, (j < i)%nat -> rs !! j = Some r -> is_default r = false.


(* ===================================================================== *)
(** ** A sample installation and request                                 *)
(* ===================================================================== *)

Module Sample.

(** A [repr] for the values no sample reason uses. *)
Definition repr (v : json) : string := "<repr>".

(** [/config/prompts/radarr/HD-1080p/system.txt] and nothing else. *)
Definition prompts_dir : PromptsDir :=
  {| radarr_dir :=
       Some [ {| entry_name := "HD-1080p"; entry_isdir := true;
                 entry_system_txt := Some "Prefer small releases. " |} ];
     sonarr_dir := None |}.

Definition cfg : Config :=
  {| radarr := Some {| url := "http://radarr:7878"; api_key := "key" |};
     sonarr := None;
     service_prompts := load_service_prompts (Some prompts_dir);
     dry_run := false;
     skip_tag := "no-ai" |}.

Definition release (g t : string) (bytes : Z) (selected : bool) : Release :=
  {| guid := Some g; title := Some t; size := Some bytes;
     quality := Some "Bluray-1080p"; indexer := Some "idx";
     seeders := Some 10; customFormatScore := Some 0;
     languages := Some ["English"]; customFormats := Some [];
     isSelected := Some selected; ageMinutes := Some (PyNum.PyInt 90);
     indexerFlags := Some [] |}.

Definition rel_a : Release := release "a" "Movie.2020.1080p.WEB" 5368709120 true.
Definition rel_b : Release := release "b" "Movie.2020.1080p.BluRay" 10737418240 false.
(** A second release flagged as the manager's pick. *)
Definition rel_c : Release := release "c" "Movie.2020.1080p.HDTV" 3221225472 true.

Definition media_7 : Media := {| media_id := Some 7; media_title := Some "Movie" |}.

Definition payload (rs : list Release) : Payload :=
  {| eventType := Some "DownloadDecisionOverride";
     media := Some media_7;
     releases := rs |}.

Definition world (profile : string) (a : llm_outcome) : World :=
  {| media_tags := fun _ => [];
     quality_profile_name := fun _ => profile;
     model_answer := a |}.

(** The model's message [{"choice": c, "reason": r}]. *)
Definition answer (c : Z) (r : string) : llm_outcome :=
  Decoded (JObj {[ "choice" := JInt c; "reason" := JStr r ]}).


(** The model endpoint answers [HTTP 503] with a reason phrase of its own;
    [raise_for_status] raises [HTTPError] with this message. *)
Definition http_503 : llm_outcome :=
  Raised "503 Server Error: AI bypassed for url: http://llm:8080/v1/chat/completions".

End Sample.

(* ===================================================================== *)
(** ** More of Python's strings and number formats                       *)
(* ===================================================================== *)

Module PyText.

(** [sep.join(items)]. *)
Fixpoint join (sep : string) (items : list string) : string :=
  match items with
  | [] => EmptyString
  | [x] => x
  | x :: rest => x +:+ sep +:+ join sep rest
  end.

(** [s.split(c)] for a separator of one character. *)
Fixpoint split (c : ascii) (s : string) : list string :=
  match s with
  | EmptyString => [EmptyString]
  | String a rest =>
      if Ascii.eqb a c then EmptyString :: split c rest
      else match split c rest with
           | [] => [String a EmptyString]
           | l :: ls => String a l :: ls
           end
  end.

(** [s.rstrip(c)] for one character [c]. *)
Fixpoint rstrip_char (c : ascii) (s : string) : string :=
  match s with
  | EmptyString => EmptyString
  | String a rest =>
      match rstrip_char c rest with
      | EmptyString => if Ascii.eqb a c then EmptyString else String a EmptyString
      | t => String a t
      end
  end.

(** [f"{n:+d}"]: the sign is always printed. *)
Definition format_plus_d (n : Z) : string :=
  if 0 <=? n then "+" +:+ PyNum.str_int n else PyNum.str_int n.

(** Two decimal digits. *)
Definition two_digits (n : Z) : string :=
  if n <? 10 then "0" +:+ PyNum.str_int n else PyNum.str_int n.

(** The number of hundredths nearest to [|x|], ties to even. *)
Definition hundredths (x : PyNum.num) : Z :=
  PyNum.rne_div (Z.abs (PyNum.numer x) * 100) (PyNum.denom x).

(** [f"{x:.2f}"]: the exact value of [x], correctly rounded to two
    decimals. *)
Definition format_2f (x : PyNum.num) : string :=
  (if PyNum.numer x <? 0 then "-" else "") +:+
  PyNum.str_int (hundredths x / 100) +:+ "." +:+ two_digits (hundredths x mod 100).

(** [c in s] for one character [c]. *)
Fixpoint mentions (c : ascii) (s : string) : bool :=
  match s with
  | EmptyString => false
  | String a rest => Ascii.eqb a c || mentions c rest
  end.

(** The text made of the given lines, each closed by a line feed. *)
Fixpoint lines_text (lines : list string) : string :=
  match lines with
  | [] => EmptyString
  | l :: rest => l +:+ String "010"%char (lines_text rest)
  end.

End PyText.

(* ===================================================================== *)
(** ** llm.py: the code fence around the model's message                 *)
(* ===================================================================== *)

(** The marker of a fenced code block. *)
Definition FENCE : string := "```".

(** The [for line in lines] loop of lines 90-97, [in_block] being the
    flag and the result the list [json_lines]. *)
Fixpoint collect_block (in_block : bool) (lines : list string) : list string :=
  match lines with
  | [] => []
  | line :: rest =>
      if String.prefix FENCE line then
        if in_block then [] else collect_block true rest
      else if in_block then line :: collect_block true rest
      else collect_block false rest
  end.

(** Lines 83-98: the text handed to [json.loads], from the raw content of
    the model's message. *)
Definition unfence (raw : string) : string :=
  let content := PyStr.strip raw in
  if String.prefix FENCE content then
    PyText.join LF (collect_block false (PyText.split "010"%char content))
  else content.

(* ===================================================================== *)
(** ** prompts.py: [format_releases_for_ai]                              *)
(* ===================================================================== *)

(** [r.get('size', 0) / (1024 ** 3)], printed with [:.2f]. *)
Definition size_gb_str (r : Release) : option string :=
  size_gb ← PyNum.truediv (PyNum.PyInt (default 0 (size r))) (2 ^ 30);
  Some (PyText.format_2f size_gb).

(** A list of names joined by [', '], or [fallback] when it is empty. *)
Definition names_or (fallback : string) (names : option (list string)) : string :=
  match default [] names with
  | [] => fallback
  | l => PyText.join ", " l
  end.

(** [flags_str]. *)
Definition flags_str (r : Release) : string :=
  match default [] (indexerFlags r) with
  | [] => EmptyString
  | l => " Flags: [" +:+ PyText.join ", " l +:+ "]"
  end.

(** [status_line]. *)
Definition status_line (r : Release) : string :=
  if default false (isSelected r) then "   RADARR PREFERRED" +:+ LF else EmptyString.

(** What follows the first line of the paragraph of a release. *)
Definition release_details (r : Release) : option string :=
  size_str ← size_gb_str r;
  age_str ← release_age_str r;
  Some ("   Size: " +:+ size_str +:+ " GB | Quality: " +:+
          default "Unknown" (quality r) +:+
          " | Indexer: " +:+ default "Unknown" (indexer r) +:+ LF +:+
        "   Seeders: " +:+ PyNum.str_int (default 0 (seeders r)) +:+
          " | CF Score: " +:+ PyText.format_plus_d (default 0 (customFormatScore r)) +:+
          " | Age: " +:+ age_str +:+ LF +:+
        "   Languages: " +:+ names_or "Unknown" (languages r) +:+ LF +:+
        "   Custom Formats: " +:+ names_or "None" (customFormats r) +:+
          flags_str r +:+ LF +:+
        status_line r).

(** The paragraph appended for the [i]-th release. *)
Definition release_paragraph (i : Z) (r : Release) : option string :=
  details ← release_details r;
  Some (PyNum.str_int i +:+ ". " +:+ default "Unknown" (title r) +:+ LF +:+ details).

(** The paragraphs of [enumerate(releases, i)]. *)
Fixpoint release_paragraphs (i : Z) (releases : list Release) : option (list string) :=
  match releases with
  | [] => Some []
  | r :: rest =>
      p ← release_paragraph i r;
      ps ← release_paragraphs (i + 1) rest;
      Some (p :: ps)
  end.

(** The first element of [lines]. *)
Definition releases_header (movie_title : string) (n : nat) : string :=
  "Available releases for '" +:+ movie_title +:+ "' (" +:+
  PyNum.str_int (Z.of_nat n) +:+ " total):" +:+ LF.

(** [format_releases_for_ai]; [None] stands for the [OverflowError] of a
    size or an age beyond the range of a float. *)
Definition format_releases_for_ai (releases : list Release) (movie_title : string)
  : option string :=
  match releases with
  | [] => Some "No releases available."
  | _ :: _ =>
      ps ← release_paragraphs 1 releases;
      Some (PyText.join LF (releases_header movie_title (length releases) :: ps))
  end.

(* ===================================================================== *)
(** ** radarr.py and sonarr.py: what the manager is asked                *)
(* ===================================================================== *)

(** The object answered for [movie/<id>] or [series/<id>]. *)
Record Movie := {
  qualityProfileId : option Z;
  movie_tags : option (list Z)
}.

(** One element of the answer to [qualityprofile]. *)
Record QualityProfile := {
  profile_id : option Z;
  profile_label : option string
}.

(** One element of the answer to [tag]. *)
Record Tag := {
  tag_id : option Z;
  tag_label : option string
}.

(** The manager behind [radarr_api_get] / [sonarr_api_get]: what each
    endpoint answers, [None] where the request raises. *)
Record ArrApi := {
  api_movie : Z -> option Movie;
  api_qualityprofile : option (list QualityProfile);
  api_tag : option (list Tag)
}.

(** The requests sent to the manager. *)
Inductive api_request :=
| GetMovie (id : Z)
| GetQualityProfiles
| GetTags.

(** [get_quality_profile_name], the same for a movie and for a series:
    the name and the requests made. *)
Definition get_quality_profile_name (api : ArrApi) (movie_id : Z)
  : string * list api_request :=
  match api_movie api movie_id with
  | None => ("default", [GetMovie movie_id])
  | Some movie =>
      let wanted := default 0 (qualityProfileId movie) in
      match api_qualityprofile api with
      | None => ("default", [GetMovie movie_id; GetQualityProfiles])
      | Some profiles =>
          (match List.find (fun p => bool_decide (profile_id p = Some wanted)) profiles with
           | Some p => default "default" (profile_label p)
           | None => "default"
           end,
           [GetMovie movie_id; GetQualityProfiles])
      end
  end.

(** One step of [{t['id']: t['label'].lower() for t in all_tags}]; [None]
    is the [KeyError] of a tag without id or label. *)
Definition tag_map_step (acc : option (gmap Z string)) (t : Tag)
  : option (gmap Z string) :=
  m ← acc; i ← tag_id t; l ← tag_label t; Some (<[i := PyStr.lower l]> m).

Definition tag_map (all_tags : list Tag) : option (gmap Z string) :=
  foldl tag_map_step (Some ∅) all_tags.

(** [get_movie_tags] / [get_series_tags]: the tag names and the requests
    made. *)
Definition get_movie_tags (api : ArrApi) (movie_id : Z)
  : list string * list api_request :=
  match api_movie api movie_id with
  | None => ([], [GetMovie movie_id])
  | Some movie =>
      match default [] (movie_tags movie) with
      | [] => ([], [GetMovie movie_id])
      | tag_ids =>
          match api_tag api with
          | None => ([], [GetMovie movie_id; GetTags])
          | Some all_tags =>
              (match tag_map all_tags with
               | Some m => omap (fun tid => m !! tid) tag_ids
               | None => []
               end,
               [GetMovie movie_id; GetTags])
          end
      end
  end.

Definition get_series_tags := get_movie_tags.

(** The world of a request served by the manager [api]. *)
Definition api_world (api : ArrApi) (a : llm_outcome) : World :=
  {| media_tags := fun i => (get_movie_tags api i).1;
     quality_profile_name := fun i => (get_quality_profile_name api i).1;
     model_answer := a |}.

(* ===================================================================== *)
(** ** config.py: [load_config], [get_config], [reload_prompts]          *)
(* ===================================================================== *)

(** The [Config] object: the fields of [Config] above under [engine],
    and the others. *)
Record Settings := {
  llm_api_url : string;
  llm_model : string;
  llm_api_key : option string;
  llm_timeout : Z;
  prompts_dir : string;
  engine : Config;
  ntfy_url : option string;
  ntfy_topic : string
}.

(** [os.environ.get(name, '').strip()]. *)
Definition getenv (env : gmap string string) (name : string) : string :=
  PyStr.strip (default EmptyString (env !! name)).

(** [s or fallback] for strings. *)
Definition str_or (s fallback : string) : string :=
  if decide (s = EmptyString) then fallback else s.

(** [s or None]. *)
Definition str_or_none (s : string) : option string :=
  if decide (s = EmptyString) then None else Some s.

(** The Radarr or Sonarr block of [load_config]: the connection, and the
    error to report. *)
Definition arr_from_env (arr_url arr_api_key error : string)
  : option ArrConfig * list string :=
  if bool_decide (arr_url ≠ EmptyString) && bool_decide (arr_api_key ≠ EmptyString) then
    (Some {| url := PyText.rstrip_char "/"%char arr_url; api_key := arr_api_key |}, [])
  else if bool_decide (arr_url ≠ EmptyString) || bool_decide (arr_api_key ≠ EmptyString) then
    (None, [error])
  else (None, []).

(** The errors [load_config] collects. *)
Definition config_errors (env : gmap string string) : list string :=
  let llm :=
    (if decide (getenv env "LLM_API_URL" = EmptyString) then ["LLM_API_URL"] else []) ++
    (if decide (getenv env "LLM_MODEL" = EmptyString) then ["LLM_MODEL"] else []) in
  let r := arr_from_env (getenv env "RADARR_URL") (getenv env "RADARR_API_KEY")
             "RADARR_URL and RADARR_API_KEY (both required if using Radarr)" in
  let s := arr_from_env (getenv env "SONARR_URL") (getenv env "SONARR_API_KEY")
             "SONARR_URL and SONARR_API_KEY (both required if using Sonarr)" in
  let errors := llm ++ r.2 ++ s.2 in
  if bool_decide (r.1 = None) && bool_decide (s.1 = None) && bool_decide (errors = [])
  then errors ++ ["At least one of RADARR or SONARR must be configured"]
  else errors.

Section LoadConfig.

(** Python's [int(s)] on a string; [None] is its [ValueError]. *)
Variable py_int : string -> option Z.

(** The file system below a path: the prompts directory found there,
    [None] where [os.path.isdir] answers no. *)
Variable fs : string -> option PromptsDir.

(** [load_config]: the configuration, or the message of the
    [ConfigurationError]. *)
Definition load_config (env : gmap string string) : string + Settings :=
  match config_errors env with
  | (_ :: _) as errors =>
      inl ("Configuration errors: " +:+ PyText.join ", " errors)
  | [] =>
      let radarr :=
        (arr_from_env (getenv env "RADARR_URL") (getenv env "RADARR_API_KEY") EmptyString).1 in
      let sonarr :=
        (arr_from_env (getenv env "SONARR_URL") (getenv env "SONARR_API_KEY") EmptyString).1 in
      let skip_tag := str_or (getenv env "SKIP_TAG") "no-ai" in
      let dry_run_env := PyStr.strip (PyStr.lower (default EmptyString (env !! "DRY_RUN"))) in
      let dry_run := bool_decide (dry_run_env ∈ ["true"; "1"; "yes"]) in
      let llm_timeout_str := PyStr.strip (default "90" (env !! "LLM_TIMEOUT")) in
      let prompts_dir := str_or (getenv env "PROMPTS_DIR") "/config/prompts" in
      inr {| llm_api_url := getenv env "LLM_API_URL";
             llm_model := getenv env "LLM_MODEL";
             llm_api_key := str_or_none (getenv env "LLM_API_KEY");
             llm_timeout := default 90 (py_int llm_timeout_str);
             prompts_dir := prompts_dir;
             engine :=
               {| radarr := radarr; sonarr := sonarr;
                  service_prompts := load_service_prompts (fs prompts_dir);
                  dry_run := dry_run;
                  skip_tag := PyStr.lower skip_tag |};
             ntfy_url := str_or_none (getenv env "NTFY_URL");
             ntfy_topic := str_or (getenv env "NTFY_TOPIC") "arr-llm-release-picker" |}
  end.

(** [get_config] on the global [_config]: the answer, or the message of
    the error raised, and the new [_config]. *)
Definition get_config (_config : option Settings) (env : gmap string string)
  : (string + Settings) * option Settings :=
  match _config with
  | Some cfg => (inr cfg, Some cfg)
  | None =>
      match load_config env with
      | inr cfg => (inr cfg, Some cfg)
      | inl e => (inl e, None)
      end
  end.

(** [cfg] with another prompt table. *)
Definition with_service_prompts (t : gmap string (gmap string string))
    (cfg : Settings) : Settings :=
  {| llm_api_url := llm_api_url cfg; llm_model := llm_model cfg;
     llm_api_key := llm_api_key cfg; llm_timeout := llm_timeout cfg;
     prompts_dir := prompts_dir cfg;
     engine := {| radarr := radarr (engine cfg); sonarr := sonarr (engine cfg);
                  service_prompts := t;
                  dry_run := dry_run (engine cfg);
                  skip_tag := skip_tag (engine cfg) |};
     ntfy_url := ntfy_url cfg; ntfy_topic := ntfy_topic cfg |}.

(** [reload_prompts] on the global [_config]: the new [_config], or the
    message of the error raised. *)
Definition reload_prompts (_config : option Settings) (env : gmap string string)
  : string + Settings :=
  match _config with
  | None => load_config env
  | Some cfg =>
      inr (with_service_prompts (load_service_prompts (fs (prompts_dir cfg))) cfg)
  end.

End LoadConfig.

(* ===================================================================== *)
(** ** notifications.py: [send_notification]                             *)
(* ===================================================================== *)

(** The JSON body posted to ntfy, and the address it is posted to. *)
Record NtfyPost (M : Type) := {
  post_url : string;
  post_topic : string;
  post_title : string;
  post_message : M;
  post_priority : Z;
  post_tags : option (list string)
}.
Arguments post_url {M}.
Arguments post_topic {M}.
Arguments post_title {M}.
Arguments post_message {M}.
Arguments post_priority {M}.
Arguments post_tags {M}.

(** [priority_map.get(priority, 3)]. *)
Definition priority_of (priority : string) : Z :=
  if decide (priority = "low") then 1
  else if decide (priority = "default") then 3
  else if decide (priority = "high") then 5
  else 3.

(** [send_notification]: the request posted, if any.  The function hands
    [message] on as it is. *)
Definition send_notification {M : Type} (cfg : Settings) (title : string)
    (message : M) (priority : string) (tags : option (list string))
  : option (NtfyPost M) :=
  match ntfy_url cfg with
  | None => None
  | Some address =>
      if decide (address = EmptyString) then None
      else Some {| post_url := PyText.rstrip_char "/"%char address;
                   post_topic := ntfy_topic cfg;
                   post_title := title;
                   post_message := message;
                   post_priority := priority_of priority;
                   post_tags := match tags with
                                | Some ((_ :: _) as l) => Some l
                                | _ => None
                                end |}
  end.

(** The [message] argument of the two calls in [routes.py]; the override
    message by its parts, as in [OverrideNotification]. *)
Inductive notification_message :=
| TextMessage (s : string)
| OverrideMessage (profile_name selected_title : string) (size : Z) (reason : json).

(** The call of [send_notification] behind an event of the handlers. *)
Definition deliver (cfg : Settings) (ev : event)
  : option (NtfyPost notification_message) :=
  match ev with
  | FailureNotification title message priority tags =>
      send_notification cfg title (TextMessage message) priority (Some tags)
  | OverrideNotification title profile_name selected_title size reason tags =>
      send_notification cfg title
        (OverrideMessage profile_name selected_title size reason) "default" (Some tags)
  | _ => None
  end.

(* ===================================================================== *)
(** ** A sample manager and environment                                  *)
(* ===================================================================== *)

Module SampleArr.

(** Movie 7 has the profile 4 and the tags 2 and 9; the manager knows the
    tags 1 and 2, and no tag 9. *)
Definition movie_7 : Movie :=
  {| qualityProfileId := Some 4; movie_tags := Some [2; 9] |}.

Definition tag_kids : Tag := {| tag_id := Some 1; tag_label := Some "kids" |}.
Definition tag_no_ai : Tag := {| tag_id := Some 2; tag_label := Some "No-AI" |}.

Definition profile_any : QualityProfile :=
  {| profile_id := Some 1; profile_label := Some "Any" |}.
Definition profile_hd : QualityProfile :=
  {| profile_id := Some 4; profile_label := Some "HD-1080p" |}.

Definition api : ArrApi :=
  {| api_movie := fun i => if decide (i = 7) then Some movie_7 else None;
     api_qualityprofile := Some [profile_any; profile_hd];
     api_tag := Some [tag_kids; tag_no_ai] |}.

(** A manager that answers no request. *)
Definition api_down : ArrApi :=
  {| api_movie := fun _ => None; api_qualityprofile := None; api_tag := None |}.

Definition env : gmap string string :=
  list_to_map
    [ ("LLM_API_URL", "http://llm:8080/v1"); ("LLM_MODEL", "gpt-4o");
      ("RADARR_URL", "http://radarr:7878/"); ("RADARR_API_KEY", "key");
      ("SKIP_TAG", " NO-AI "); ("NTFY_URL", "https://ntfy.example/") ].

(** [int] on the strings the sample environment can hand to it. *)
Definition py_int (s : string) : option Z :=
  if decide (s = "90") then Some 90 else None.

(** The disk holds [Sample.prompts_dir] at [/config/prompts]. *)
Definition fs (path : string) : option PromptsDir :=
  if decide (path = "/config/prompts") then Some Sample.prompts_dir else None.

(** The disk after the profile directory was replaced by [uhd]. *)
Definition fs_later (path : string) : option PromptsDir :=
  if decide (path = "/config/prompts") then
    Some {| radarr_dir :=
              Some [ {| entry_name := "UHD"; entry_isdir := true;
                        entry_system_txt := Some "Prefer remuxes." |} ];
            sonarr_dir := None |}
  else None.

(** An installation whose only prompt is for the profile name "unknown". *)
Definition cfg_unknown : Config :=
  {| radarr := Some {| url := "http://radarr:7878"; api_key := "key" |};
     sonarr := None;
     service_prompts :=
       load_service_prompts
         (Some {| radarr_dir :=
                    Some [ {| entry_name := "Unknown"; entry_isdir := true;
                              entry_system_txt := Some "Prefer small releases." |} ];
                  sonarr_dir := None |});
     dry_run := false;
     skip_tag := "no-ai" |}.

(** An override request whose media id is 0. *)
Definition payload_without_id : Payload :=
  {| eventType := Some "DownloadDecisionOverride";
     media := Some {| media_id := Some 0; media_title := Some "Movie" |};
     releases := [Sample.rel_a; Sample.rel_b] |}.

(** What [load_config] returns for [env] on [fs]. *)
Definition settings : Settings :=
  {| llm_api_url := "http://llm:8080/v1"; llm_model := "gpt-4o";
     llm_api_key := None; llm_timeout := 90;
     prompts_dir := "/config/prompts";
     engine :=
       {| radarr := Some {| url := "http://radarr:7878"; api_key := "key" |};
          sonarr := None;
          service_prompts := load_service_prompts (Some Sample.prompts_dir);
          dry_run := false;
          skip_tag := "no-ai" |};
     ntfy_url := Some "https://ntfy.example/";
     ntfy_topic := "arr-llm-release-picker" |}.

End SampleArr.

(* ===================================================================== *)
(** ** The handlers in full: rendering, and the exception it lets out    *)
(* ===================================================================== *)

(** [ask_ai_for_selection] and [webhook_override] above are the handlers
    from the request to the model onwards.  Before that request is built,
    and outside the [try] block, [ask_ai_for_selection] renders the text of
    the releases (line 49), and the two divisions of
    [format_releases_for_ai] raise [OverflowError] on a size or an age
    beyond the range of a float.  Nothing catches it: not
    [ask_ai_for_selection], not the handler.  The definitions of this
    module are the same functions with that step, and with the [size_gb] of
    the handlers (lines 189 and 400). *)
Module Full.

(** How a call ends for its caller: it returns, or an [OverflowError]
    leaves it.  An exception that leaves a handler is answered by Flask
    with HTTP 500 and no decision. *)
Inductive outcome (A : Type) :=
| Returns (a : A)
| RaisesOverflowError.
Arguments Returns {A} a.
Arguments RaisesOverflowError {A}.

(** [round(x, 2)] on a float: the float nearest to [x] rounded to two
    decimals, ties to even at both steps; [None] is the [OverflowError] of
    a rounded value too large to represent. *)
Definition round2 (x : PyNum.num) : option PyNum.num :=
  let h := PyText.hundredths x in
  if h =? 0 then Some (PyNum.PyFloat 0 0)
  else if PyNum.numer x <? 0 then PyNum.neg <$> PyNum.round_binary64 h 100
  else PyNum.round_binary64 h 100.

(** [round(selected.get('size', 0) / (1024 ** 3), 2)]. *)
Definition size_gb (selected : Release) : option PyNum.num :=
  x ← PyNum.truediv (PyNum.PyInt (default 0 (size selected))) (2 ^ 30);
  round2 x.

(** [ask_ai_for_selection], lines 43-115. *)
Definition ask_ai_for_selection (cfg : Config) (w : World)
    (releases : list Release) (media_title profile_name service : string)
  : outcome (option Z * json) * list event :=
  match get_system_prompt_for_profile cfg service profile_name with
  | None => (Returns (None, JStr "AI bypassed - no prompt for this profile"), [])
  | Some system_prompt =>
      match format_releases_for_ai releases media_title with
      | None => (RaisesOverflowError, [])
      | Some releases_text =>
          let call := ModelCall system_prompt media_title profile_name releases in
          match model_answer w with
          | Decoded parsed => (Returns (interpret_answer parsed), [call])
          | RaisedJSONDecodeError e =>
              (Returns (None, JStr ("Invalid JSON response: " +:+ e)), [call])
          | Raised e => (Returns (None, JStr e), [call])
          end
      end
  end.

Section Routes.

Variable py_repr : json -> string.

(** [webhook_radarr_override] and [webhook_sonarr_override]: the response
    [(jsonify(...), 200)], or the exception that leaves the handler, and
    the calls made on the way. *)
Definition webhook_override (svc : Service) (cfg : Config) (w : World)
    (body : option Payload) : outcome (Decision * Z) * list event :=
  match arr_config svc cfg with
  | None => (Returns (respond (JStr (service_label svc +:+ " not configured"))), [])
  | Some _ =>
  match body with
  | None => (Returns (respond (JStr "Empty payload")), [])
  | Some payload =>
  let event_type := default "" (eventType payload) in
  if bool_decide (event_type ≠ "DownloadDecisionOverride") then
    (Returns (respond (JStr ("Ignored event type: " +:+ event_type))), [])
  else
  let movie := default {| media_id := None; media_title := None |} (media payload) in
  let movie_id := truthy_id (media_id movie) in
  let movie_title := default "Unknown" (media_title movie) in
  let releases := releases payload in
  if bool_decide (releases = []) then
    (Returns (respond (JStr "No releases to evaluate")), [])
  else
  (* Check for skip tag *)
  let tags := from_option (media_tags w) [] movie_id in
  let t_tags := from_option (fun i => [TagsLookup svc i]) [] movie_id in
  if bool_decide (skip_tag cfg ∈ tags) then
    (Returns (respond (JStr ("Skipped: tag " +:+ skip_tag cfg +:+ " present"))), t_tags)
  else
  (* Get quality profile name *)
  let profile_name := from_option (quality_profile_name w) "unknown" movie_id in
  let t_profile := from_option (fun i => [ProfileLookup svc i]) [] movie_id in
  (* Ask AI to select *)
  match ask_ai_for_selection cfg w releases movie_title profile_name (service_name svc) with
  | (RaisesOverflowError, t_ai) => (RaisesOverflowError, t_tags ++ t_profile ++ t_ai)
  | (Returns (choice, reason), t_ai) =>
  let t := t_tags ++ t_profile ++ t_ai in
  (* No prompts for this profile - let the manager choose normally *)
  if is_bypass choice reason then (Returns (respond reason), t)
  else
  match selected_release choice releases with
  | None =>
      (Returns (respond (JStr ("AI failed: " +:+ py_str py_repr reason +:+
                               ", using default"))),
       t ++ [FailureNotification
               ("AI Warning: " +:+ movie_title)
               ("Selection failed: " +:+ py_str py_repr reason +:+ LF +:+
                "Using " +:+ service_label svc +:+ " default")
               "low" ["warning"]])
  | Some selected =>
  let selected_guid := guid selected in
  let selected_title := default "Unknown" (title selected) in
  match size_gb selected with
  | None => (RaisesOverflowError, t)
  | Some _ =>
  (* Check if AI chose the same as the manager's default *)
  let is_same_as_default :=
    match default_selected releases with
    | Some d => bool_decide (guid d = selected_guid)
    | None => false
    end in
  if is_same_as_default then
    (Returns (respond (JStr ("AI confirms default: " +:+ py_str py_repr reason))), t)
  else if dry_run cfg then
    (Returns (respond (JStr ("[DRY RUN] Would select: " +:+ selected_title))), t)
  else
    (Returns ({| approved := true;
                 selectedReleaseGuid := Some selected_guid;
                 reason := reason |}, 200),
     t ++ [OverrideNotification
             ("AI Override: " +:+ movie_title)
             profile_name selected_title (default 0 (size selected)) reason
             [override_tag svc]])
  end end end end end.

Definition webhook_radarr_override := webhook_override Radarr.
Definition webhook_sonarr_override := webhook_override Sonarr.

End Routes.

End Full.



(* ===================================================================== *)
(** ** The handler, step by step                                         *)
(* ===================================================================== *)

Section HandlerSteps.

Variable py_repr : json -> string.

(** A request that reaches the model stage is answered by [conclude]. *)
Lemma webhook_override_reaches svc cfg w payload :
  reaches_ai svc cfg w payload ->
  webhook_override py_repr svc cfg w (Some payload) =
  let '((choice, reason), t_ai) :=
    ask_ai_for_selection cfg w (releases payload) (request_title payload)
      (request_profile_name w payload) (service_name svc) in
  conclude py_repr svc cfg w payload choice reason (lookups svc payload ++ t_ai).
Proof.
  intros ([a Ha] & Hev & Hrel & Hskip).
  unfold webhook_override. rewrite Ha, Hev. simpl.
  rewrite (bool_decide_eq_false_2 _ Hrel).
  fold (request_media_id payload). fold (request_title payload).
  fold (request_tags w payload).
  rewrite (bool_decide_eq_false_2 _ Hskip).
  fold (request_profile_name w payload).
  destruct (ask_ai_for_selection _ _ _ _ _ _) as [[choice reason] t_ai].
  unfold conclude, lookups. rewrite <- !app_assoc. reflexivity.
Qed.

End HandlerSteps.

(* ===================================================================== *)
(** ** The decision policy                                               *)
(* ===================================================================== *)

Section DecisionPolicy.

Variable py_repr : json -> string.

(** No call is made behind [ask_ai_for_selection]'s back: it asks the
    model exactly when a prompt is configured. *)
Lemma ask_ai_trace cfg w rs media_title profile_name service :
  (ask_ai_for_selection cfg w rs media_title profile_name service).2 =
  match get_system_prompt_for_profile cfg service profile_name with
  | Some system_prompt => [ModelCall system_prompt media_title profile_name rs]
  | None => []
  end.
Proof. unfold ask_ai_for_selection. repeat case_match; reflexivity. Qed.

Lemma ask_ai_no_prompt cfg w rs media_title profile_name service :
  get_system_prompt_for_profile cfg service profile_name = None ->
  ask_ai_for_selection cfg w rs media_title profile_name service =
  ((None, JStr "AI bypassed - no prompt for this profile"), []).
Proof. intros H. unfold ask_ai_for_selection. rewrite H. reflexivity. Qed.

Lemma lookups_no_model_call svc payload :
  Forall (fun ev => is_model_call ev = false) (lookups svc payload).
Proof.
  unfold lookups. destruct (request_media_id payload); simpl; repeat constructor.
Qed.


(** A request that stops before the model stage has only looked up tags. *)
Lemma webhook_override_early svc cfg w payload :
  ~ reaches_ai svc cfg w payload ->
  Forall (fun ev => is_model_call ev = false /\ is_notification ev = false)
         (webhook_override py_repr svc cfg w (Some payload)).2.
Proof.
  intros Hno. unfold webhook_override.
  destruct (arr_config svc cfg) as [a|] eqn:Ha; [| constructor].
  case_bool_decide as Hev; [constructor |].
  case_bool_decide as Hrel; [constructor |].
  fold (request_media_id payload). fold (request_tags w payload).
  case_bool_decide as Hskip.
  - destruct (request_media_id payload); simpl; repeat constructor.
  - exfalso. apply Hno. repeat split; [by eexists | | done | done].
    destruct (eventType payload) as [s|]; simpl in Hev; [by subst | discriminate].
Qed.

Lemma selected_release_in_range c rs r :
  1 <= c -> rs !! Z.to_nat (c - 1) = Some r ->
  selected_release (Some c) rs = Some r.
Proof.
  intros Hc Hr. unfold selected_release, no_valid_selection.
  apply lookup_lt_Some in Hr as Hlt.
  rewrite orb_false_intro; [exact Hr | lia | lia].
Qed.

Lemma selected_release_Some choice rs r :
  selected_release choice rs = Some r ->
  exists c, choice = Some c /\ 1 <= c <= Z.of_nat (length rs) /\
            rs !! Z.to_nat (c - 1) = Some r.
Proof.
  unfold selected_release, no_valid_selection.
  destruct choice as [c|]; [| discriminate].
  destruct (orb _ _) eqn:E; [discriminate |].
  apply orb_false_elim in E as [E1 E2]. simpl. intros Hr.
  exists c. repeat split; [lia | lia | exact Hr].
Qed.

Lemma selected_release_None choice rs :
  selected_release choice rs = None <-> no_valid_selection choice rs = true.
Proof.
  unfold selected_release. destruct (no_valid_selection choice rs) eqn:E; [done |].
  split; [| discriminate]. unfold no_valid_selection in E.
  destruct choice as [c|]; [| discriminate].
  apply orb_false_elim in E as [E1 E2]. simpl. intros Hr.
  apply lookup_ge_None in Hr. lia.
Qed.

Lemma default_selected_first rs d :
  default_selected rs = Some d <-> exists i, first_flagged rs i d.
Proof.
  unfold default_selected, first_flagged. induction rs as [|x rs IH]; simpl.
  - split; [discriminate | by intros (i & ? & _)].
  - destruct (is_default x) eqn:Hx.
    + split.
      * intros [= <-]. exists 0%nat. repeat split; [done |]. intros j r Hj. lia.
      * intros (i & Hi & Hd & Hbefore). destruct i as [|i]; [by simplify_eq/= |].
        specialize (Hbefore 0%nat x ltac:(lia) eq_refl). congruence.
    + rewrite IH. split.
      * intros (i & Hi & Hd & Hbefore). exists (S i). repeat split; [done | done |].
        intros [|j] r Hj Hr; simplify_eq/=; [done |]. eapply Hbefore; [| done]. lia.
      * intros (i & Hi & Hd & Hbefore). destruct i as [|i]; [simplify_eq/=; congruence |].
        exists i. repeat split; [done | done |].
        intros j r Hj Hr. apply (Hbefore (S j) r); [lia | done].
Qed.

Lemma default_selected_none rs :
  default_selected rs = None <-> forall i d, ~ first_flagged rs i d.
Proof.
  split.
  - intros Hn i d Hf.
    assert (default_selected rs = Some d) as E by (apply default_selected_first; eauto).
    congruence.
  - intros Hn. destruct (default_selected rs) as [d|] eqn:E; [| done].
    apply default_selected_first in E as [i Hi]. by destruct (Hn i d).
Qed.


Lemma reaches_ai_dec svc cfg w payload :
  reaches_ai svc cfg w payload \/ ~ reaches_ai svc cfg w payload.
Proof.
  unfold reaches_ai.
  destruct (arr_config svc cfg) as [a|];
    [| right; intros (H & _); by destruct H].
  destruct (decide (eventType payload = Some "DownloadDecisionOverride"));
    [| right; tauto].
  destruct (releases payload) as [|r rs]; [right; tauto |].
  destruct (decide (skip_tag cfg ∈ request_tags w payload)); [right; tauto |].
  left. repeat split; [by eexists | done | done | done].
Qed.

(** Without a prompt the handler never asks the model. *)
Lemma no_prompt_no_model_call svc cfg w payload :
  get_system_prompt_for_profile cfg (service_name svc)
    (request_profile_name w payload) = None ->
  Forall (fun ev => is_model_call ev = false)
         (webhook_override py_repr svc cfg w (Some payload)).2.
Proof.
  intros Hnone. destruct (reaches_ai_dec svc cfg w payload) as [Hr|Hr].
  - rewrite (webhook_override_reaches py_repr _ _ _ _ Hr).
    rewrite ask_ai_no_prompt by done. cbn. rewrite app_nil_r.
    apply lookups_no_model_call.
  - eapply Forall_impl; [apply (webhook_override_early _ _ _ _ Hr) |].
    by intros ev [? _].
Qed.

(** A request that stops before the model stage is answered without a
    selected guid, and the answer depends on the releases only through
    their presence and on the world only through the tags. *)
Lemma webhook_override_early_decision svc cfg w payload :
  ~ reaches_ai svc cfg w payload ->
  selectedReleaseGuid (webhook_override py_repr svc cfg w (Some payload)).1.1 = None.
Proof.
  intros Hno. unfold webhook_override.
  destruct (arr_config svc cfg) as [a|] eqn:Ha; [| done].
  case_bool_decide as Hev; [done |].
  case_bool_decide as Hrel; [done |].
  fold (request_media_id payload). fold (request_tags w payload).
  case_bool_decide as Hskip; [done |].
  exfalso. apply Hno. repeat split; [by eexists | | done | done].
  destruct (eventType payload) as [s|]; simpl in Hev; [by subst | discriminate].
Qed.

Lemma webhook_override_early_eq svc cfg w payload w' rs' :
  ~ reaches_ai svc cfg w payload ->
  media_tags w' = media_tags w ->
  (releases payload = [] <-> rs' = []) ->
  webhook_override py_repr svc cfg w' (Some (with_releases rs' payload)) =
  webhook_override py_repr svc cfg w (Some payload).
Proof.
  intros Hno Htags Hnil. unfold webhook_override.
  destruct (arr_config svc cfg) as [a|] eqn:Ha; [| done].
  cbn [eventType media releases with_releases].
  case_bool_decide as Hev; [done |].
  rewrite (bool_decide_ext (rs' = []) (releases payload = [])) by (symmetry; exact Hnil).
  case_bool_decide as Hrel; [done |].
  fold (request_media_id payload). rewrite Htags. fold (request_tags w payload).
  case_bool_decide as Hskip; [done |].
  exfalso. apply Hno. repeat split; [by eexists | | done | done].
  destruct (eventType payload) as [s|]; simpl in Hev; [by subst | discriminate].
Qed.

(** What [conclude] selects is the release the choice points at. *)
Lemma conclude_selected svc cfg w payload choice reason t g :
  selectedReleaseGuid (conclude py_repr svc cfg w payload choice reason t).1.1 = Some g ->
  exists c r, choice = Some c /\ 1 <= c <= Z.of_nat (length (releases payload)) /\
              releases payload !! Z.to_nat (c - 1) = Some r /\ g = guid r.
Proof.
  unfold conclude. destruct (is_bypass choice reason); [done |].
  destruct (selected_release choice (releases payload)) as [r|] eqn:Hsel; [| done].
  apply selected_release_Some in Hsel as (c & -> & Hc & Hr).
  repeat case_match; simpl; try done.
  all: intros [= <-]; by exists c, r.
Qed.

(** A choice comes from a decoded message only. *)
Lemma ask_ai_choice cfg w rs media_title profile_name service c rsn :
  (ask_ai_for_selection cfg w rs media_title profile_name service).1 = (Some c, rsn) ->
  exists parsed, model_answer w = Decoded parsed /\
                 interpret_answer parsed = (Some c, rsn).
Proof.
  unfold ask_ai_for_selection.
  destruct (get_system_prompt_for_profile _ _ _); [| done].
  destruct (model_answer w) as [e|e|parsed]; simpl; [done | done |].
  intros H. by exists parsed.
Qed.

(** A selected guid is the guid of the release at the model's index. *)
Lemma selected_guid_at_index svc cfg w body g :
  selectedReleaseGuid (webhook_override py_repr svc cfg w body).1.1 = Some g ->
  exists payload parsed c rsn r,
    body = Some payload /\ model_answer w = Decoded parsed /\
    interpret_answer parsed = (Some c, rsn) /\
    1 <= c <= Z.of_nat (length (releases payload)) /\
    releases payload !! Z.to_nat (c - 1) = Some r /\ g = guid r.
Proof.
  destruct body as [payload|];
    [| unfold webhook_override; by destruct (arr_config svc cfg)].
  destruct (reaches_ai_dec svc cfg w payload) as [Hr|Hr];
    [| by rewrite (webhook_override_early_decision _ _ _ _ Hr)].
  rewrite (webhook_override_reaches py_repr _ _ _ _ Hr).
  destruct (ask_ai_for_selection _ _ _ _ _ _) as [[choice reason] t_ai] eqn:Hask.
  intros (c & r & -> & Hc & Hlook & ->)%conclude_selected.
  destruct (ask_ai_choice cfg w (releases payload) (request_title payload)
              (request_profile_name w payload) (service_name svc) c reason)
    as (parsed & Hans & Hint); [by rewrite Hask |].
  by exists payload, parsed, c, reason, r.
Qed.

Lemma default_selected_head rs :
  default_selected rs = head (filter (fun r => is_default r = true) rs).
Proof.
  unfold default_selected. induction rs as [|x rs IH]; [done |].
  simpl. rewrite filter_cons. destruct (is_default x) eqn:Hx.
  - by rewrite decide_True.
  - by rewrite decide_False.
Qed.

(** With at most one release flagged, the default does not depend on the
    order of the releases. *)
Lemma default_selected_perm rs rs' :
  rs ≡ₚ rs' ->
  (length (filter (fun r => is_default r = true) rs) <= 1)%nat ->
  default_selected rs = default_selected rs'.
Proof.
  intros Hp Hlen. rewrite !default_selected_head.
  assert (filter (fun r => is_default r = true) rs ≡ₚ
          filter (fun r => is_default r = true) rs') as Hf by (by rewrite Hp).
  destruct (filter _ rs) as [|x [|y l]]; simpl in Hlen; [| | lia].
  - by apply Permutation_nil_l in Hf as ->.
  - by apply Permutation_singleton_l in Hf as ->.
Qed.

Lemma reaches_ai_reordered svc cfg w payload a rs' :
  releases payload ≡ₚ rs' ->
  reaches_ai svc cfg w payload ->
  reaches_ai svc cfg (with_answer a w) (with_releases rs' payload).
Proof.
  intros Hp (H1 & H2 & H3 & H4). repeat split; [done | done | | done].
  simpl. intros ->. by apply Permutation_nil_r in Hp.
Qed.

(** Reordering the releases and moving the model's index along leaves the
    decision as it was, provided the first flagged release keeps its guid. *)
Lemma reordered_same_decision svc cfg w payload rs' parsed parsed' c c' rsn r :
  releases payload ≡ₚ rs' ->
  model_answer w = Decoded parsed ->
  interpret_answer parsed = (Some c, rsn) ->
  interpret_answer parsed' = (Some c', rsn) ->
  1 <= c -> 1 <= c' ->
  releases payload !! Z.to_nat (c - 1) = Some r ->
  rs' !! Z.to_nat (c' - 1) = Some r ->
  guid <$> default_selected (releases payload) = guid <$> default_selected rs' ->
  (webhook_override py_repr svc cfg (with_answer (Decoded parsed') w)
     (Some (with_releases rs' payload))).1 =
  (webhook_override py_repr svc cfg w (Some payload)).1.
Proof.
  intros Hp Hans Hint Hint' Hc Hc' Hr Hr' Hdef.
  destruct (reaches_ai_dec svc cfg w payload) as [Hreach|Hno].
  - pose proof (reaches_ai_reordered svc cfg w payload (Decoded parsed') rs' Hp Hreach)
      as Hreach'.
    rewrite (webhook_override_reaches py_repr _ _ _ _ Hreach).
    rewrite (webhook_override_reaches py_repr _ _ _ _ Hreach').
    change (request_profile_name (with_answer (Decoded parsed') w)
              (with_releases rs' payload))
      with (request_profile_name w payload).
    change (request_title (with_releases rs' payload)) with (request_title payload).
    unfold ask_ai_for_selection.
    destruct (get_system_prompt_for_profile cfg (service_name svc)
                (request_profile_name w payload)) as [sp|]; [| done].
    rewrite Hans. cbn [model_answer with_answer]. rewrite Hint, Hint'.
    unfold conclude. cbn [is_bypass releases with_releases fst].
    rewrite (selected_release_in_range _ _ _ Hc Hr).
    rewrite (selected_release_in_range _ _ _ Hc' Hr').
    destruct (default_selected (releases payload)) as [d|],
             (default_selected rs') as [d'|]; simplify_eq/=.
    + rewrite Hdef. by repeat case_match.
    + by repeat case_match.
  - f_equal. apply webhook_override_early_eq; [done | done |].
    split; intros H.
    + rewrite H in Hp. by apply Permutation_nil_l in Hp.
    + rewrite H in Hp. by apply Permutation_nil_r in Hp.
Qed.

(** The failure branch: no valid selection, and the reason is not read as
    the bypass signal. *)
Lemma failure_branch svc cfg w payload choice reason t :
  is_bypass choice reason = false ->
  no_valid_selection choice (releases payload) = true ->
  conclude py_repr svc cfg w payload choice reason t =
  (({| approved := true; selectedReleaseGuid := None;
       reason := JStr ("AI failed: " +:+ py_str py_repr reason +:+ ", using default") |},
    200),
   t ++ [FailureNotification
           ("AI Warning: " +:+ request_title payload)
           ("Selection failed: " +:+ py_str py_repr reason +:+ LF +:+
            "Using " +:+ service_label svc +:+ " default")
           "low" ["warning"]]).
Proof.
  intros Hb Hn. unfold conclude. rewrite Hb.
  by rewrite (proj2 (selected_release_None _ _) Hn).
Qed.

Lemma no_failure_notification_in t :
  Forall (fun ev => is_failure_notification ev = false) t ->
  ~ Exists (fun ev => is_failure_notification ev = true) t.
Proof.
  intros Hf (ev & Hin & Hev)%Exists_exists.
  rewrite Forall_forall in Hf. specialize (Hf ev Hin). congruence.
Qed.

Lemma conclude_failure_notification svc cfg w payload choice reason t :
  Forall (fun ev => is_failure_notification ev = false) t ->
  Exists (fun ev => is_failure_notification ev = true)
         (conclude py_repr svc cfg w payload choice reason t).2 ->
  is_bypass choice reason = false /\
  no_valid_selection choice (releases payload) = true.
Proof.
  intros Hclean. unfold conclude.
  destruct (is_bypass choice reason);
    [intros H; by destruct (no_failure_notification_in t) |].
  destruct (selected_release choice (releases payload)) as [r|] eqn:Hsel;
    [| intros _; split; [done | by apply selected_release_None]].
  destruct (match default_selected (releases payload) with
            | Some d => bool_decide (guid d = guid r)
            | None => false
            end);
    [intros H; by destruct (no_failure_notification_in t) |].
  destruct (dry_run cfg);
    [intros H; by destruct (no_failure_notification_in t) |].
  cbn [snd]. intros H. exfalso.
  apply (no_failure_notification_in
           (t ++ [OverrideNotification ("AI Override: " +:+ request_title payload)
                    (request_profile_name w payload) (default "Unknown" (title r))
                    (default 0 (size r)) reason [override_tag svc]]));
    [| exact H].
  apply Forall_app. split; [exact Hclean | by repeat constructor].
Qed.

(** The failure notification comes from the failure branch only. *)
Lemma failure_notification_origin svc cfg w payload :
  Exists (fun ev => is_failure_notification ev = true)
         (webhook_override py_repr svc cfg w (Some payload)).2 ->
  reaches_ai svc cfg w payload /\
  exists choice reason,
    (ask_ai_for_selection cfg w (releases payload) (request_title payload)
       (request_profile_name w payload) (service_name svc)).1 = (choice, reason) /\
    is_bypass choice reason = false /\
    no_valid_selection choice (releases payload) = true.
Proof.
  intros Hex. destruct (reaches_ai_dec svc cfg w payload) as [Hr|Hr].
  - split; [done |]. revert Hex.
    rewrite (webhook_override_reaches py_repr _ _ _ _ Hr).
    pose proof (ask_ai_trace cfg w (releases payload) (request_title payload)
                  (request_profile_name w payload) (service_name svc)) as Ht.
    destruct (ask_ai_for_selection _ _ _ _ _ _) as [[choice reason] t_ai].
    simpl in Ht. intros Hex. exists choice, reason. split; [done |].
    apply (conclude_failure_notification svc cfg w payload choice reason
             (lookups svc payload ++ t_ai)); [| exact Hex].
    apply Forall_app. split.
    + unfold lookups. destruct (request_media_id payload); simpl; repeat constructor.
    + rewrite Ht. case_match; repeat constructor.
  - exfalso. pose proof (webhook_override_early _ _ _ _ Hr) as Hf.
    apply Exists_exists in Hex as (ev & Hin & Hev).
    rewrite Forall_forall in Hf. destruct (Hf ev Hin) as [_ Hn].
    by destruct ev.
Qed.

(** A failed or out-of-range answer whose reason is not read as the bypass
    signal: the manager's default is used and the failure is notified. *)
Lemma ai_failure_defers svc cfg w payload choice reason :
  reaches_ai svc cfg w payload ->
  is_Some (get_system_prompt_for_profile cfg (service_name svc)
             (request_profile_name w payload)) ->
  (ask_ai_for_selection cfg w (releases payload) (request_title payload)
     (request_profile_name w payload) (service_name svc)).1 = (choice, reason) ->
  is_bypass choice reason = false ->
  no_valid_selection choice (releases payload) = true ->
  (webhook_override py_repr svc cfg w (Some payload)).1 =
  ({| approved := true; selectedReleaseGuid := None;
      reason := JStr ("AI failed: " +:+ py_str py_repr reason +:+ ", using default") |},
   200) /\
  Exists (fun ev => is_failure_notification ev = true)
         (webhook_override py_repr svc cfg w (Some payload)).2.
Proof.
  intros Hreach _ Hask Hb Hn.
  rewrite (webhook_override_reaches py_repr _ _ _ _ Hreach).
  destruct (ask_ai_for_selection _ _ _ _ _ _) as [[choice' reason'] t_ai].
  simpl in Hask. simplify_eq.
  rewrite (failure_branch _ _ _ _ _ _ _ Hb Hn). split; [done |].
  apply Exists_app. right. by constructor.
Qed.

End DecisionPolicy.

(* ===================================================================== *)
(** ** Properties of the decision policy                                 *)
(* ===================================================================== *)

(** The sample request is an override event with releases and no tags. *)
Ltac sample_reaches_ai :=
  split; [by eexists |]; split; [reflexivity |];
  split; [discriminate |]; vm_compute; inversion 1.

(** C7.  A request whose release list is empty is answered at once with
    [approved = true] and reason "No releases to evaluate": whatever the
    prompt table and the world are, nothing is looked up and no model call
    is made. *)
Theorem no_releases_short_circuit
    (py_repr : json -> string) (svc : Service) (cfg : Config) (w : World)
    (payload : Payload) :
  is_Some (arr_config svc cfg) ->
  eventType payload = Some "DownloadDecisionOverride" ->
  releases payload = [] ->
  webhook_override py_repr svc cfg w (Some payload) =
  (({| approved := true; selectedReleaseGuid := None;
       reason := JStr "No releases to evaluate" |}, 200), []).
Proof.
  intros [a Ha] Hev Hrel. unfold webhook_override.
  rewrite Ha, Hev, Hrel. reflexivity.
Qed.

Lemma no_releases_short_circuit_witness :
  is_Some (arr_config Radarr Sample.cfg) /\
  eventType (Sample.payload []) = Some "DownloadDecisionOverride" /\
  releases (Sample.payload []) = [] /\
  webhook_override Sample.repr Radarr Sample.cfg
    (Sample.world "HD-1080p" (Sample.answer 1 "only one")) (Some (Sample.payload [])) =
  (({| approved := true; selectedReleaseGuid := None;
       reason := JStr "No releases to evaluate" |}, 200), []).
Proof.
  assert (is_Some (arr_config Radarr Sample.cfg)) as H1 by (by eexists).
  split; [exact H1 |]. split; [reflexivity |]. split; [reflexivity |].
  apply (no_releases_short_circuit Sample.repr Radarr Sample.cfg _ (Sample.payload []) H1);
    reflexivity.
Defined.

(** C6.  When no prompt is configured for the (service, profile name) pair
    of a request, [ask_ai_for_selection] returns the bypass reason without
    asking the model and the handler issues no model call at all; the
    profile name is resolved once the request has passed the checks before
    it (service configured, override event, releases present, no skip tag),
    and the decision then is [approved = true] with reason exactly
    "AI bypassed - no prompt for this profile". *)
Theorem no_prompt_bypasses_ai
    (py_repr : json -> string) (svc : Service) (cfg : Config) (w : World)
    (payload : Payload) :
  get_system_prompt_for_profile cfg (service_name svc)
    (request_profile_name w payload) = None ->
  ask_ai_for_selection cfg w (releases payload) (request_title payload)
    (request_profile_name w payload) (service_name svc) =
  ((None, JStr "AI bypassed - no prompt for this profile"), []) /\
  Forall (fun ev => is_model_call ev = false)
         (webhook_override py_repr svc cfg w (Some payload)).2 /\
  (reaches_ai svc cfg w payload ->
   (webhook_override py_repr svc cfg w (Some payload)).1 =
   ({| approved := true; selectedReleaseGuid := None;
       reason := JStr "AI bypassed - no prompt for this profile" |}, 200)).
Proof.
  intros Hnone. split; [by apply ask_ai_no_prompt |]. split.
  - by apply no_prompt_no_model_call.
  - intros Hr. rewrite (webhook_override_reaches py_repr _ _ _ _ Hr).
    rewrite ask_ai_no_prompt by done. reflexivity.
Qed.

Lemma no_prompt_bypasses_ai_witness :
  let w := Sample.world "Ultra-HD" (Sample.answer 2 "better seeders") in
  let payload := Sample.payload [Sample.rel_a; Sample.rel_b] in
  get_system_prompt_for_profile Sample.cfg (service_name Radarr)
    (request_profile_name w payload) = None /\
  reaches_ai Radarr Sample.cfg w payload /\
  Forall (fun ev => is_model_call ev = false)
         (webhook_override Sample.repr Radarr Sample.cfg w (Some payload)).2 /\
  (webhook_override Sample.repr Radarr Sample.cfg w (Some payload)).1 =
  ({| approved := true; selectedReleaseGuid := None;
      reason := JStr "AI bypassed - no prompt for this profile" |}, 200).
Proof.
  intros w payload.
  assert (get_system_prompt_for_profile Sample.cfg (service_name Radarr)
            (request_profile_name w payload) = None) as H1 by reflexivity.
  assert (reaches_ai Radarr Sample.cfg w payload) as H2.
  { sample_reaches_ai. }
  split; [exact H1 |]. split; [exact H2 |].
  destruct (no_prompt_bypasses_ai Sample.repr Radarr Sample.cfg w payload H1)
    as (_ & Hcalls & Hdec).
  split; [exact Hcalls | exact (Hdec H2)].
Defined.







(** C1 (as the code has it).  A [selectedReleaseGuid] in the decision is
    the guid of the release at the model's 1-based index in the release list
    as received: nothing is made up, nothing is reordered.  When the releases
    are reordered and the model's index moves along with the chosen release,
    a guid selected after the reordering is the same guid; and the whole
    decision is unchanged whenever the first default-flagged release keeps
    its guid, which is so in particular when at most one release is
    flagged. *)
Theorem selected_guid_follows_index
    (py_repr : json -> string) (svc : Service) (cfg : Config) :
  (forall w body g,
      selectedReleaseGuid (webhook_override py_repr svc cfg w body).1.1 = Some g ->
      exists payload parsed c rsn r,
        body = Some payload /\ model_answer w = Decoded parsed /\
        interpret_answer parsed = (Some c, rsn) /\
        1 <= c <= Z.of_nat (length (releases payload)) /\
        releases payload !! Z.to_nat (c - 1) = Some r /\ g = guid r) /\
  (forall w payload rs' parsed parsed' c c' rsn r,
      releases payload ≡ₚ rs' ->
      model_answer w = Decoded parsed ->
      interpret_answer parsed = (Some c, rsn) ->
      interpret_answer parsed' = (Some c', rsn) ->
      1 <= c -> 1 <= c' ->
      releases payload !! Z.to_nat (c - 1) = Some r ->
      rs' !! Z.to_nat (c' - 1) = Some r ->
      let before := (webhook_override py_repr svc cfg w (Some payload)).1 in
      let after :=
        (webhook_override py_repr svc cfg (with_answer (Decoded parsed') w)
           (Some (with_releases rs' payload))).1 in
      (forall g g', selectedReleaseGuid before.1 = Some g ->
                    selectedReleaseGuid after.1 = Some g' -> g' = g) /\
      (guid <$> default_selected (releases payload) = guid <$> default_selected rs' ->
       after = before) /\
      ((length (filter (fun x => is_default x = true) (releases payload)) <= 1)%nat ->
       after = before)).
Proof.
  split; [intros w body g; apply selected_guid_at_index |].
  intros w payload rs' parsed parsed' c c' rsn r Hp Hans Hint Hint' Hc Hc' Hr Hr'
         before after.
  split; [| split].
  - intros g g' Hg Hg'. subst before after.
    apply selected_guid_at_index in Hg
      as (p0 & parsed0 & c0 & rsn0 & r0 & Hb & Hans0 & Hint0 & _ & Hr0 & ->).
    apply selected_guid_at_index in Hg'
      as (p1 & parsed1 & c1 & rsn1 & r1 & Hb1 & Hans1 & Hint1 & _ & Hr1 & ->).
    simplify_eq/=. congruence.
  - intros Hdef. by eapply reordered_same_decision.
  - intros Hone. eapply reordered_same_decision; try done.
    by rewrite (default_selected_perm _ _ Hp Hone).
Qed.

Lemma selected_guid_follows_index_witness :
  selectedReleaseGuid
    (webhook_override Sample.repr Radarr Sample.cfg
       (Sample.world "HD-1080p" (Sample.answer 2 "better seeders"))
       (Some (Sample.payload [Sample.rel_a; Sample.rel_b]))).1.1 = Some (Some "b") /\
  (webhook_override Sample.repr Radarr Sample.cfg
     (with_answer (Sample.answer 1 "better seeders")
        (Sample.world "HD-1080p" (Sample.answer 2 "better seeders")))
     (Some (with_releases [Sample.rel_b; Sample.rel_a]
              (Sample.payload [Sample.rel_a; Sample.rel_b])))).1 =
  (webhook_override Sample.repr Radarr Sample.cfg
     (Sample.world "HD-1080p" (Sample.answer 2 "better seeders"))
     (Some (Sample.payload [Sample.rel_a; Sample.rel_b]))).1.
Proof.
  split; [reflexivity |].
  destruct (selected_guid_follows_index Sample.repr Radarr Sample.cfg) as [_ H].
  destruct (H (Sample.world "HD-1080p" (Sample.answer 2 "better seeders"))
              (Sample.payload [Sample.rel_a; Sample.rel_b])
              [Sample.rel_b; Sample.rel_a]
              (JObj {[ "choice" := JInt 2; "reason" := JStr "better seeders" ]})
              (JObj {[ "choice" := JInt 1; "reason" := JStr "better seeders" ]})
              2 1 (JStr "better seeders") Sample.rel_b) as (_ & _ & Hone).
  - apply perm_swap.
  - reflexivity.
  - reflexivity.
  - reflexivity.
  - lia.
  - lia.
  - reflexivity.
  - reflexivity.
  - apply Hone. vm_compute. lia.
Defined.

(** C1, as stated, fails when two releases are flagged as default: the
    request selects guid "c" at index 2 of [a; c]; with the releases
    reordered to [c; a] and the index moved to 1, release "c" has become the
    first flagged one and no guid is selected. *)
Lemma reordering_changes_selected_guid :
  [Sample.rel_a; Sample.rel_c] ≡ₚ [Sample.rel_c; Sample.rel_a] /\
  [Sample.rel_a; Sample.rel_c] !! Z.to_nat (2 - 1) = Some Sample.rel_c /\
  [Sample.rel_c; Sample.rel_a] !! Z.to_nat (1 - 1) = Some Sample.rel_c /\
  selectedReleaseGuid
    (webhook_override Sample.repr Radarr Sample.cfg
       (Sample.world "HD-1080p" (Sample.answer 2 "smaller"))
       (Some (Sample.payload [Sample.rel_a; Sample.rel_c]))).1.1 = Some (Some "c") /\
  selectedReleaseGuid
    (webhook_override Sample.repr Radarr Sample.cfg
       (Sample.world "HD-1080p" (Sample.answer 1 "smaller"))
       (Some (Sample.payload [Sample.rel_c; Sample.rel_a]))).1.1 = None.
Proof.
  split; [apply perm_swap |]. repeat split.
Qed.

(** C3 (where the code departs from it).  A prompt is configured, the
    request carries two releases and no skip tag, and the model invocation
    fails: the endpoint answers HTTP 503 with the reason phrase
    "AI bypassed", so [ask_ai_for_selection] returns no choice and the
    message of the [HTTPError].  The handler reads that message as the
    no-prompt signal: it answers with the bare message instead of
    "AI failed: <detail>, using default" and sends no failure
    notification. *)
Theorem failure_detail_read_as_bypass :
  get_system_prompt_for_profile Sample.cfg (service_name Radarr) "HD-1080p" =
    Some "Prefer small releases." /\
  reaches_ai Radarr Sample.cfg (Sample.world "HD-1080p" Sample.http_503)
    (Sample.payload [Sample.rel_a; Sample.rel_b]) /\
  (ask_ai_for_selection Sample.cfg (Sample.world "HD-1080p" Sample.http_503)
     [Sample.rel_a; Sample.rel_b] "Movie" "HD-1080p" "radarr").1 =
    (None,
     JStr "503 Server Error: AI bypassed for url: http://llm:8080/v1/chat/completions") /\
  webhook_radarr_override Sample.repr Sample.cfg
    (Sample.world "HD-1080p" Sample.http_503)
    (Some (Sample.payload [Sample.rel_a; Sample.rel_b])) =
  (({| approved := true; selectedReleaseGuid := None;
       reason :=
         JStr "503 Server Error: AI bypassed for url: http://llm:8080/v1/chat/completions" |},
    200),
   [TagsLookup Radarr 7; ProfileLookup Radarr 7;
    ModelCall "Prefer small releases." "Movie" "HD-1080p"
      [Sample.rel_a; Sample.rel_b]]).
Proof.
  split; [reflexivity |]. split; [| split; reflexivity].
  sample_reaches_ai.
Qed.

(** The same failure with another reason phrase takes the failure branch. *)
Example failure_detail_without_sentinel :
  webhook_radarr_override Sample.repr Sample.cfg
    (Sample.world "HD-1080p"
       (Raised "503 Server Error: Service Unavailable for url: http://llm:8080/v1/chat/completions"))
    (Some (Sample.payload [Sample.rel_a; Sample.rel_b])) =
  (({| approved := true; selectedReleaseGuid := None;
       reason :=
         JStr "AI failed: 503 Server Error: Service Unavailable for url: http://llm:8080/v1/chat/completions, using default" |},
    200),
   [TagsLookup Radarr 7; ProfileLookup Radarr 7;
    ModelCall "Prefer small releases." "Movie" "HD-1080p"
      [Sample.rel_a; Sample.rel_b];
    FailureNotification "AI Warning: Movie"
      ("Selection failed: 503 Server Error: Service Unavailable for url: http://llm:8080/v1/chat/completions"
         +:+ LF +:+ "Using Radarr default")
      "low" ["warning"]]).
Proof. reflexivity. Qed.

(** A choice of 0 or of [n + 1] among [n] releases is a failure. *)
Example choice_out_of_range :
  (webhook_radarr_override Sample.repr Sample.cfg
     (Sample.world "HD-1080p" (Sample.answer 0 "none fits"))
     (Some (Sample.payload [Sample.rel_a; Sample.rel_b]))).1 =
  ({| approved := true; selectedReleaseGuid := None;
      reason := JStr "AI failed: none fits, using default" |}, 200) /\
  (webhook_radarr_override Sample.repr Sample.cfg
     (Sample.world "HD-1080p" (Sample.answer 3 "the third"))
     (Some (Sample.payload [Sample.rel_a; Sample.rel_b]))).1 =
  ({| approved := true; selectedReleaseGuid := None;
      reason := JStr "AI failed: the third, using default" |}, 200).
Proof. split; reflexivity. Qed.

(** [isinstance(choice, int)] lets a JSON [true] through as index 1. *)
Example boolean_choice_is_an_index :
  interpret_answer (JObj {[ "choice" := JBool true; "reason" := JStr "yes" ]}) =
    (Some 1, JStr "yes") /\
  interpret_answer (JObj {[ "choice" := JStr "2"; "reason" := JStr "second" ]}) =
    (None, JStr "Invalid choice type: <class 'str'>") /\
  interpret_answer (JArr [JInt 2]) =
    (None, JStr "'list' object has no attribute 'get'").
Proof. repeat split. Qed.

(** The example of the specification: the model prefers release "b". *)
Example override_example :
  webhook_radarr_override Sample.repr Sample.cfg
    (Sample.world "HD-1080p" (Sample.answer 2 "better seeders"))
    (Some (Sample.payload [Sample.rel_a; Sample.rel_b])) =
  (({| approved := true; selectedReleaseGuid := Some (Some "b");
       reason := JStr "better seeders" |}, 200),
   [TagsLookup Radarr 7; ProfileLookup Radarr 7;
    ModelCall "Prefer small releases." "Movie" "HD-1080p"
      [Sample.rel_a; Sample.rel_b];
    OverrideNotification "AI Override: Movie" "HD-1080p"
      "Movie.2020.1080p.BluRay" 10737418240 (JStr "better seeders")
      ["movie_camera"]]).
Proof. reflexivity. Qed.

(* ===================================================================== *)
(** ** Properties of prompt resolution                                   *)
(* ===================================================================== *)

Example lower_example :
  PyStr.lower "HD-1080p" = "hd-1080p" /\
  PyStr.strip "  Ultra HD  " = "Ultra HD" /\
  PyStr.contains "AI bypassed" "AI bypassed - no prompt for this profile" = true /\
  PyStr.contains "AI bypassed" "Invalid choice type: <class 'str'>" = false.
Proof. repeat split. Qed.

(** A prefix of a configured name, or a name with no directory, resolves
    to nothing; there is no default profile to fall back to. *)
Example no_prefix_match :
  get_system_prompt_for_profile Sample.cfg "radarr" "HD" = None /\
  get_system_prompt_for_profile Sample.cfg "radarr" "HD-1080p Remux" = None /\
  get_system_prompt_for_profile Sample.cfg "radarr" "default" = None /\
  get_system_prompt_for_profile Sample.cfg "sonarr" "HD-1080p" = None.
Proof. repeat split. Qed.

Lemma lower_char_idempotent c :
  PyStr.lower_char (PyStr.lower_char c) = PyStr.lower_char c.
Proof. destruct c as [[] [] [] [] [] [] [] []]; reflexivity. Qed.

Lemma case_variant_lower c d :
  PyStr.case_variant c d -> PyStr.lower_char c = PyStr.lower_char d.
Proof.
  intros [-> | [<- | ->]]; [done | |]; by rewrite lower_char_idempotent.
Qed.

Lemma differ_only_in_case_lower a b :
  PyStr.differ_only_in_case a b -> PyStr.lower a = PyStr.lower b.
Proof.
  induction 1 as [|c d s t Hc _ IH]; [done |].
  simpl. by rewrite (case_variant_lower _ _ Hc), IH.
Qed.

(** What the loading loop leaves under a key comes from the accumulator or
    from an entry that provides it. *)
Lemma load_profiles_lookup es acc key p :
  foldl load_profile acc es !! key = Some p ->
  acc !! key = Some p \/ exists e, e ∈ es /\ provides e key p.
Proof.
  revert acc. induction es as [|e es IH]; intros acc; simpl; [by left |].
  intros [H | (e' & Hin & He')]%IH.
  - unfold load_profile in H.
    destruct (entry_isdir e) eqn:Hd; [| by left].
    destruct (_load_system_prompt e) as [q|] eqn:Hq; [| by left].
    destruct (decide (PyStr.lower (entry_name e) = key)) as [<-|Hne].
    + rewrite lookup_insert_eq in H. simplify_eq.
      right. exists e. split; [left | done].
    + rewrite lookup_insert_ne in H by done. by left.
  - right. exists e'. split; [by right | done].
Qed.

Lemma load_profiles_keeps es acc key :
  is_Some (acc !! key) -> is_Some (foldl load_profile acc es !! key).
Proof.
  revert acc. induction es as [|e es IH]; intros acc; simpl; [done |].
  intros H. apply IH. unfold load_profile.
  destruct (entry_isdir e); [| done].
  destruct (_load_system_prompt e); [| done].
  destruct (decide (PyStr.lower (entry_name e) = key)) as [<-|Hne].
  - rewrite lookup_insert_eq. by eexists.
  - by rewrite lookup_insert_ne.
Qed.

Lemma load_profiles_provided es acc key :
  (exists e p, e ∈ es /\ provides e key p) ->
  is_Some (foldl load_profile acc es !! key).
Proof.
  revert acc. induction es as [|e es IH]; intros acc (e' & p & Hin & He').
  - by apply elem_of_nil in Hin.
  - simpl. apply elem_of_cons in Hin as [-> | Hin].
    + apply load_profiles_keeps. destruct He' as (Hd & Hq & Hk).
      unfold load_profile. rewrite Hd, Hq, Hk, lookup_insert_eq. by eexists.
    + apply IH. eauto.
Qed.

(** The table of a service, by its normalized name. *)
Lemma load_service_prompts_lookup pd service :
  default ∅ (load_service_prompts pd !! service) =
  load_service (service_listing pd service).
Proof.
  unfold load_service_prompts, service_listing.
  destruct pd as [d|]; simpl.
  - destruct (decide (service = "radarr")) as [->|Hr]; [done |].
    destruct (decide (service = "sonarr")) as [->|Hs].
    + by rewrite lookup_insert_eq.
    + by rewrite !lookup_insert_ne, lookup_empty.
  - destruct (decide (service = "sonarr")) as [->|Hs];
      [by rewrite lookup_insert_eq |].
    rewrite lookup_insert_ne by done.
    destruct (decide (service = "radarr")) as [->|Hr];
      [by rewrite lookup_insert_eq |].
    by rewrite lookup_insert_ne, lookup_empty.
Qed.

(** C9 (as the code has it).  On a table loaded from the prompts directory,
    resolution normalizes the requested service and profile name by
    [lower()] and [strip()] and then compares exactly: it succeeds exactly
    when the normalized service is "radarr" or "sonarr" and the normalized
    profile name is the lower-cased name of a profile directory of that
    service holding a non-empty [system.txt], and it returns the prompt of
    such a directory.  No prefix or fuzzy matching, no fallback to a default
    profile: a name that matches no directory in this way resolves to
    nothing.  Names that differ only in letter case resolve alike. *)
Theorem prompt_resolution_normalized
    (cfg : Config) (pd : option PromptsDir) (service profile_name : string) :
  service_prompts cfg = load_service_prompts pd ->
  let key_s := PyStr.strip (PyStr.lower service) in
  let key_p := PyStr.strip (PyStr.lower profile_name) in
  (is_Some (get_system_prompt_for_profile cfg service profile_name) <->
   exists es e p, service_listing pd key_s = Some es /\ e ∈ es /\ provides e key_p p) /\
  (forall p, get_system_prompt_for_profile cfg service profile_name = Some p ->
   exists es e, service_listing pd key_s = Some es /\ e ∈ es /\ provides e key_p p) /\
  (forall service' profile_name',
      PyStr.differ_only_in_case service service' ->
      PyStr.differ_only_in_case profile_name profile_name' ->
      get_system_prompt_for_profile cfg service' profile_name' =
      get_system_prompt_for_profile cfg service profile_name).
Proof.
  intros Hload key_s key_p.
  assert (forall p, get_system_prompt_for_profile cfg service profile_name = Some p ->
            exists es e, service_listing pd key_s = Some es /\ e ∈ es /\
                         provides e key_p p) as Hsome.
  { intros p. unfold get_system_prompt_for_profile. fold key_s key_p.
    rewrite Hload, load_service_prompts_lookup. unfold load_service.
    destruct (service_listing pd key_s) as [es|]; [| by rewrite lookup_empty].
    intros [H | (e & Hin & He)]%load_profiles_lookup;
      [by rewrite lookup_empty in H |].
    by exists es, e. }
  split; [split |]; [| | split; [exact Hsome |]].
  - intros [p Hp]. destruct (Hsome p Hp) as (es & e & ?). by exists es, e, p.
  - intros (es & e & p & Hes & Hin & He).
    unfold get_system_prompt_for_profile. fold key_s key_p.
    rewrite Hload, load_service_prompts_lookup, Hes. simpl.
    apply load_profiles_provided. eauto.
  - intros service' profile_name' Hs Hp.
    unfold get_system_prompt_for_profile.
    by rewrite (differ_only_in_case_lower _ _ Hs), (differ_only_in_case_lower _ _ Hp).
Qed.

Lemma prompt_resolution_normalized_witness :
  service_prompts Sample.cfg = load_service_prompts (Some Sample.prompts_dir) /\
  get_system_prompt_for_profile Sample.cfg "Radarr" "HD-1080P" =
    Some "Prefer small releases." /\
  exists es e, service_listing (Some Sample.prompts_dir) "radarr" = Some es /\
               e ∈ es /\ provides e "hd-1080p" "Prefer small releases.".
Proof.
  split; [reflexivity |]. split; [reflexivity |].
  destruct (prompt_resolution_normalized Sample.cfg (Some Sample.prompts_dir)
              "Radarr" "HD-1080P" eq_refl) as (_ & Hsome & _).
  exact (Hsome "Prefer small releases." eq_refl).
Defined.

(** C9, as stated, fails on surrounding whitespace: the profile name
    " hd-1080p " resolves to the prompt stored under "hd-1080p", the only
    key of the Radarr table, although the two names are not equal up to
    letter case. *)
Lemma padded_profile_name_resolves :
  get_system_prompt_for_profile Sample.cfg "radarr" " hd-1080p " =
    Some "Prefer small releases." /\
  service_prompts Sample.cfg !! "radarr" =
    Some {[ "hd-1080p" := "Prefer small releases." ]} /\
  ~ PyStr.differ_only_in_case " hd-1080p " "hd-1080p".
Proof.
  split; [reflexivity |]. split; [reflexivity |].
  intros H. inversion H as [|c d s t Hc _]; subst.
  destruct Hc as [Hc | [Hc | Hc]]; vm_compute in Hc; discriminate.
Qed.

(* ===================================================================== *)
(** ** Properties of the age bucket                                      *)
(* ===================================================================== *)

Example format_age_examples :
  format_age (PyNum.PyInt 0) = Some "0m" /\
  format_age (PyNum.PyFloat 119 (-1)) = Some "59m" /\
  format_age (PyNum.PyFloat 181 (-1)) = Some "1h" /\
  format_age (PyNum.PyFloat 11519 (-2)) = Some "1d" /\
  format_age (PyNum.PyInt 100000) = Some "69d" /\
  release_age_str Sample.rel_a = Some "1h".
Proof. repeat split. Qed.

(** On sample quotients the rounding of [PyNum.truediv] is the division of
    the standard library's IEEE 754 model, [SpecFloat.SFdiv]. *)
Example truediv_agrees_with_SFdiv :
  (SpecFloat.SFdiv 53 1024 (SpecFloat.S754_finite false 1439 0)
                           (SpecFloat.S754_finite false 60 0) =
     SpecFloat.S754_finite false 6750708191443900 (-48) /\
   PyNum.truediv (PyNum.PyInt 1439) 60 =
     Some (PyNum.PyFloat 6750708191443900 (-48))) /\
  (SpecFloat.SFdiv 53 1024 (SpecFloat.S754_finite false 12666373951980959 0)
                           (SpecFloat.S754_finite false 1440 0) =
     SpecFloat.S754_finite false 4503599627371008 (-9) /\
   PyNum.truediv (PyNum.PyInt 12666373951980959) 1440 =
     Some (PyNum.PyFloat 4503599627371008 (-9))) /\
  (SpecFloat.SFdiv 53 1024 (SpecFloat.S754_finite false 6333186975989759 (-42))
                           (SpecFloat.S754_finite false 60 0) =
     SpecFloat.S754_finite false 6755399441055743 (-48) /\
   PyNum.truediv (PyNum.PyFloat 6333186975989759 (-42)) 60 =
     Some (PyNum.PyFloat 6755399441055743 (-48))).
Proof. repeat split; vm_compute; reflexivity. Qed.

Lemma rne_div_cases p q :
  PyNum.rne_div p q = p / q \/
  (PyNum.rne_div p q = p / q + 1 /\ q <= 2 * (p mod q)).
Proof.
  unfold PyNum.rne_div.
  destruct (2 * (p mod q) <? q) eqn:E1; [by left |].
  apply Z.ltb_ge in E1.
  destruct (q <? 2 * (p mod q)) eqn:E2; [by right |].
  destruct (Z.even (p / q)); [by left | by right].
Qed.

(** Rounding a quotient to [T]-ths of a unit and truncating gives the
    truncated quotient, as long as the quotient's denominator is below
    [2 * T]. *)
Lemma rne_div_scaled_trunc p q T :
  0 <= p -> 0 < q -> 0 < T -> q < 2 * T ->
  PyNum.rne_div (p * T) q / T = p / q.
Proof.
  intros Hp Hq HT HqT.
  pose proof (Z.div_mod p q ltac:(lia)) as Hpq.
  pose proof (Z.mod_pos_bound p q Hq) as Hrp.
  pose proof (Z.div_mod (p * T) q ltac:(lia)) as Hn.
  pose proof (Z.mod_pos_bound (p * T) q Hq) as Hr0.
  set (k := p / q) in *. set (rp := p mod q) in *.
  set (q0 := (p * T) / q) in *. set (r0 := (p * T) mod q) in *.
  assert (k * T <= q0) as Hlow.
  { apply Z.div_le_lower_bound; [done |]. nia. }
  assert (q0 <= (k + 1) * T - 1) as Hup.
  { assert (q0 < (k + 1) * T); [| lia].
    apply Z.div_lt_upper_bound; [done |]. nia. }
  symmetry. apply (Z.div_unique_pos _ _ _ (PyNum.rne_div (p * T) q - k * T)); [| lia].
  destruct (rne_div_cases (p * T) q) as [-> | [-> Hround]]; fold q0.
  - lia.
  - fold r0 in Hround. assert (q0 <> (k + 1) * T - 1); [| lia].
    intros Heq. nia.
Qed.

(** A quotient of at least 1 whose denominator is small against the
    precision left after its integer part: the nearest float truncates to
    the truncated quotient. *)
Lemma round_binary64_trunc p q :
  0 < q -> q <= p ->
  Z.log2 (p / q) <= 52 ->
  q < 2 ^ (53 - Z.log2 (p / q)) ->
  exists f, PyNum.round_binary64 p q = Some f /\ PyNum.int f = p / q.
Proof.
  intros Hq Hqp HE Hsmall.
  unfold PyNum.round_binary64, PyNum.flog2.
  rewrite (proj2 (Z.leb_le q p) Hqp).
  pose proof (Z.log2_nonneg (p / q)) as HE0.
  set (E := Z.log2 (p / q)) in *.
  rewrite (Z.max_l (E - 52) (-1074)) by lia.
  destruct (decide (E = 52)) as [HE52 | HE52].
  - rewrite HE52 in *. change (52 - 52) with 0. change (53 - 52) with 1 in Hsmall.
    change (2 ^ 1) with 2 in Hsmall. assert (q = 1) as -> by lia.
    change (0 <=? 0) with true. cbn iota. change (1 * 2 ^ 0) with 1.
    assert (PyNum.rne_div p 1 = p / 1) as ->.
    { unfold PyNum.rne_div. rewrite Z.mod_1_r. reflexivity. }
    change ((971 <? 0) || (0 =? 971) && (2 ^ 53 <=? p / 1)) with false. cbn iota.
    eexists. split; [reflexivity |].
    unfold PyNum.int. simpl. rewrite Z.mul_1_r. apply Z.quot_1_r.
  - assert (E - 52 < 0) as He by lia.
    rewrite (proj2 (Z.leb_gt 0 (E - 52)) He).
    rewrite (proj2 (Z.ltb_ge 971 (E - 52))) by lia.
    rewrite (proj2 (Z.eqb_neq (E - 52) 971)) by lia.
    cbn [orb andb]. eexists. split; [reflexivity |].
    unfold PyNum.int, PyNum.numer, PyNum.denom.
    rewrite (proj2 (Z.leb_gt 0 (E - 52)) He).
    replace (- (E - 52)) with (52 - E) by lia.
    assert (0 < 2 ^ (52 - E)) as HT by (apply Z.pow_pos_nonneg; lia).
    assert (2 ^ (53 - E) = 2 * 2 ^ (52 - E)) as HT2.
    { replace (53 - E) with (Z.succ (52 - E)) by lia. apply Z.pow_succ_r. lia. }
    assert (0 <= PyNum.rne_div (p * 2 ^ (52 - E)) q) as Hm.
    { assert (0 <= (p * 2 ^ (52 - E)) / q) by (apply Z.div_pos; nia).
      destruct (rne_div_cases (p * 2 ^ (52 - E)) q) as [-> | [-> _]]; lia. }
    rewrite Z.quot_div_nonneg by lia.
    apply rne_div_scaled_trunc; lia.
Qed.

(** The denominator is small enough when the numerator fits the mantissa. *)
Lemma small_denominator_of_mantissa p q :
  0 < q -> q <= p -> p < 2 ^ 53 ->
  Z.log2 (p / q) <= 52 /\ q < 2 ^ (53 - Z.log2 (p / q)).
Proof.
  intros Hq Hqp Hp.
  assert (1 <= p / q) as Hk by (apply Z.div_le_lower_bound; lia).
  pose proof (Z.log2_spec (p / q) ltac:(lia)) as [Hlo _].
  pose proof (Z.log2_nonneg (p / q)) as HE0.
  pose proof (Z.mul_div_le p q Hq) as Hmul.
  set (E := Z.log2 (p / q)) in *.
  assert (E < 53) as HE.
  { apply (Z.pow_lt_mono_r_iff 2); [lia | lia |]. nia. }
  split; [lia |].
  assert (2 ^ 53 = 2 ^ E * 2 ^ (53 - E)) as Hsplit.
  { rewrite <- Z.pow_add_r by lia. f_equal. lia. }
  assert (0 < 2 ^ E) by (apply Z.pow_pos_nonneg; lia).
  assert (0 < 2 ^ (53 - E)) by (apply Z.pow_pos_nonneg; lia).
  nia.
Qed.

(** ... or when the quotient is below [2^43] and the denominator below
    [2^11]. *)
Lemma small_denominator_of_bound p q :
  0 < q -> q <= p -> q < 2 ^ 11 -> p / q < 2 ^ 43 ->
  Z.log2 (p / q) <= 52 /\ q < 2 ^ (53 - Z.log2 (p / q)).
Proof.
  intros Hq Hqp Hq11 Hk43.
  assert (1 <= p / q) as Hk by (apply Z.div_le_lower_bound; lia).
  assert (Z.log2 (p / q) < 43) as HE by (apply Z.log2_lt_pow2; lia).
  split; [lia |].
  assert (2 ^ 11 <= 2 ^ (53 - Z.log2 (p / q))); [| lia].
  apply Z.pow_le_mono_r; lia.
Qed.

Lemma denom_pos x : 0 < PyNum.denom x.
Proof.
  destruct x as [n | m e]; simpl; [lia |].
  destruct (0 <=? e) eqn:He; [lia |].
  apply Z.leb_gt in He. apply Z.pow_pos_nonneg; lia.
Qed.

Lemma numer_fits_mantissa x :
  PyNum.binary64 x -> PyNum.denom x = 1 \/ Z.abs (PyNum.numer x) < 2 ^ 53.
Proof.
  destruct x as [n | m e]; simpl; [by left |].
  intros [Hm _]. destruct (0 <=? e); [by left | by right].
Qed.

(** The hour and day buckets: the quotient by 60 or 1440, truncated. *)
Lemma truediv_truncates x (d : positive) :
  PyNum.binary64 x ->
  Z.pos d * PyNum.denom x <= PyNum.numer x ->
  Z.pos d < 2 ^ 11 ->
  PyNum.numer x < Z.pos d * 2 ^ 43 * PyNum.denom x ->
  exists f, PyNum.truediv x d = Some f /\
            PyNum.int f = truncated_quotient x (Z.pos d).
Proof.
  intros Hb Hlow Hd Hup.
  pose proof (denom_pos x) as HD.
  pose proof (numer_fits_mantissa x Hb) as Hfit.
  unfold PyNum.truediv, truncated_quotient.
  set (P := PyNum.numer x) in *. set (D := PyNum.denom x) in *.
  assert (0 < P) as HP by nia.
  rewrite (proj2 (Z.eqb_neq P 0)) by lia.
  rewrite (proj2 (Z.ltb_lt 0 P)) by lia.
  replace (Z.pos d * D) with (D * Z.pos d) in Hlow by lia.
  assert (Z.log2 (P / (D * Z.pos d)) <= 52 /\
          D * Z.pos d < 2 ^ (53 - Z.log2 (P / (D * Z.pos d)))) as [H1 H2].
  { destruct Hfit as [HD1 | Hfit].
    - rewrite HD1 in *. apply small_denominator_of_bound; [lia | lia | lia |].
      apply Z.div_lt_upper_bound; lia.
    - apply small_denominator_of_mantissa; [nia | lia | lia]. }
  apply round_binary64_trunc; [nia | lia | done | done].
Qed.

(** C8 (as the code has it).  For every non-negative [ageMinutes], an
    [int] or a float, below [1440 * 2^43] minutes, the formatter renders the
    age as "Nm" below 60 minutes, as "Nh" with [N] the truncated quotient by
    60 below 1440 minutes, and as "Nd" with [N] the truncated quotient by
    1440 from then on.  In particular 59 gives "59m", 60 gives "1h", 1439
    gives "23h" and 1440 gives "1d". *)
Theorem format_age_truncates :
  (forall x : PyNum.num,
      PyNum.binary64 x ->
      0 <= PyNum.numer x ->
      PyNum.numer x < 1440 * 2 ^ 43 * PyNum.denom x ->
      format_age x = Some (age_bucket x)) /\
  format_age (PyNum.PyInt 59) = Some "59m" /\
  format_age (PyNum.PyInt 60) = Some "1h" /\
  format_age (PyNum.PyInt 1439) = Some "23h" /\
  format_age (PyNum.PyInt 1440) = Some "1d".
Proof.
  split; [| by repeat split].
  intros x Hb Hnn Hup. pose proof (denom_pos x) as HD.
  unfold format_age, age_bucket, PyNum.lt_int.
  destruct (PyNum.numer x <? 60 * PyNum.denom x) eqn:H60.
  - unfold PyNum.int, truncated_quotient.
    rewrite Z.quot_div_nonneg, Z.mul_1_r by lia. reflexivity.
  - apply Z.ltb_ge in H60.
    destruct (PyNum.numer x <? 1440 * PyNum.denom x) eqn:H1440.
    + apply Z.ltb_lt in H1440.
      destruct (truediv_truncates x 60 Hb) as (f & Hf & Hint); [lia | lia | nia |].
      rewrite Hf. simpl. by rewrite Hint.
    + apply Z.ltb_ge in H1440.
      destruct (truediv_truncates x 1440 Hb) as (f & Hf & Hint); [lia | lia | lia |].
      rewrite Hf. simpl. by rewrite Hint.
Qed.

Lemma format_age_truncates_witness :
  PyNum.binary64 (PyNum.PyFloat 11519 (-2)) /\
  0 <= PyNum.numer (PyNum.PyFloat 11519 (-2)) /\
  PyNum.numer (PyNum.PyFloat 11519 (-2)) <
    1440 * 2 ^ 43 * PyNum.denom (PyNum.PyFloat 11519 (-2)) /\
  format_age (PyNum.PyFloat 11519 (-2)) = Some "1d".
Proof.
  assert (PyNum.binary64 (PyNum.PyFloat 11519 (-2))) as H1 by (simpl; lia).
  split; [exact H1 |]. split; [simpl; lia |]. split; [simpl; lia |].
  destruct format_age_truncates as [H _].
  exact (H (PyNum.PyFloat 11519 (-2)) H1 ltac:(simpl; lia) ltac:(simpl; lia)).
Defined.

(** C8, as stated, fails for very large ages: [1440 * 2^43 + 1439] minutes
    are [2^43] whole days, but the quotient is rounded to the nearest float
    before it is truncated and the formatter prints [2^43 + 1] days. *)
Lemma huge_age_is_rounded_up :
  0 <= 12666373951980959 /\
  12666373951980959 / 1440 = 8796093022208 /\
  age_bucket (PyNum.PyInt 12666373951980959) = "8796093022208d" /\
  format_age (PyNum.PyInt 12666373951980959) = Some "8796093022209d".
Proof. repeat split; [lia | vm_compute; reflexivity ..]. Qed.

(* ===================================================================== *)
(** ** Properties of the code fence                                      *)
(* ===================================================================== *)

Lemma append_cons (x : ascii) (a b : string) : String x a +:+ b = String x (a +:+ b).
Proof. reflexivity. Qed.

Lemma append_nil (b : string) : EmptyString +:+ b = b.
Proof. reflexivity. Qed.

Lemma append_assoc (a b c : string) : (a +:+ b) +:+ c = a +:+ (b +:+ c).
Proof.
  induction a as [|x a IH]; [done |]. by rewrite !append_cons, IH.
Qed.

Lemma split_nonempty c s : PyText.split c s <> [].
Proof.
  destruct s as [|a s]; simpl; [done |].
  destruct (Ascii.eqb a c); [done |]. by destruct (PyText.split c s).
Qed.

Lemma split_no_separator c s :
  PyText.mentions c s = false -> PyText.split c s = [s].
Proof.
  induction s as [|a s IH]; simpl; [done |].
  intros [Ha Hs]%orb_false_elim. rewrite Ha, (IH Hs). done.
Qed.

Lemma split_at_separator c a b :
  PyText.mentions c a = false ->
  PyText.split c (a +:+ String c b) = a :: PyText.split c b.
Proof.
  induction a as [|x a IH].
  - intros _. rewrite append_nil. simpl. by rewrite Ascii.eqb_refl.
  - rewrite append_cons. simpl.
    intros [Hx Ha]%orb_false_elim. by rewrite Hx, (IH Ha).
Qed.

Lemma mentions_app c a b :
  PyText.mentions c (a +:+ b) = PyText.mentions c a || PyText.mentions c b.
Proof.
  induction a as [|x a IH]; [done |].
  rewrite append_cons. simpl. by rewrite IH, orb_assoc.
Qed.

(** The lines of a text that opens with a fence open with a fence line. *)
Lemma split_fence_first s :
  exists h t, PyText.split "010"%char (FENCE +:+ s) = (FENCE +:+ h) :: t.
Proof.
  unfold FENCE. rewrite !append_cons, append_nil. simpl.
  destruct (PyText.split "010"%char s) as [|h t] eqn:E;
    [by destruct (split_nonempty "010"%char s) |].
  by exists h, t.
Qed.

Lemma split_lines_text body tail :
  Forall (fun l => PyText.mentions "010"%char l = false) body ->
  PyText.split "010"%char (PyText.lines_text body +:+ tail) =
  body ++ PyText.split "010"%char tail.
Proof.
  induction 1 as [|l body Hl _ IH]; [done |].
  cbn [PyText.lines_text]. rewrite append_assoc, append_cons.
  by rewrite (split_at_separator _ _ _ Hl), IH.
Qed.

Lemma prefix_fence s : String.prefix FENCE (FENCE +:+ s) = true.
Proof. unfold FENCE. rewrite !append_cons, append_nil. simpl. by destruct s. Qed.

Lemma collect_block_body body h t :
  Forall (fun l => String.prefix FENCE l = false) body ->
  collect_block true (body ++ (FENCE +:+ h) :: t) = body.
Proof.
  induction 1 as [|l body Hl _ IH].
  - rewrite app_nil_l. cbn [collect_block]. by rewrite prefix_fence.
  - rewrite <- app_comm_cons. cbn [collect_block]. by rewrite Hl, IH.
Qed.

Lemma rstrip_cons_visible c s :
  PyStr.is_space c = false -> PyStr.rstrip (String c s) = String c (PyStr.rstrip s).
Proof. intros Hc. simpl. rewrite Hc. by destruct (PyStr.rstrip s). Qed.

Lemma rstrip_app_visible x y :
  PyStr.rstrip y <> EmptyString -> PyStr.rstrip (x +:+ y) = x +:+ PyStr.rstrip y.
Proof.
  intros Hy. induction x as [|c x IH]; [done |].
  rewrite !append_cons. simpl. rewrite IH.
  destruct (x +:+ PyStr.rstrip y) eqn:E; [| done].
  destruct x; [by rewrite append_nil in E | by rewrite append_cons in E].
Qed.

Lemma lstrip_spaces lead s :
  Forall (fun c => PyStr.is_space c = true) (list_ascii_of_string lead) ->
  PyStr.lstrip (lead +:+ s) = PyStr.lstrip s.
Proof.
  induction lead as [|c lead IH]; [done |].
  rewrite append_cons. simpl.
  intros H. inversion H as [|? ? Hc Hrest]; subst. by rewrite Hc, IH.
Qed.

Lemma rstrip_fence rest : PyStr.rstrip (FENCE +:+ rest) = FENCE +:+ PyStr.rstrip rest.
Proof.
  unfold FENCE. rewrite !append_cons, !append_nil.
  by rewrite !rstrip_cons_visible.
Qed.

Lemma lstrip_fence s : PyStr.lstrip (FENCE +:+ s) = FENCE +:+ s.
Proof. unfold FENCE. by rewrite !append_cons, append_nil. Qed.

(** X1.  A message wrapped in a fenced code block -- leading whitespace,
    an opening fence with any language tag, the lines of the body, a
    closing fence, anything after it -- is unwrapped to exactly the body. *)
Theorem fenced_answer_is_unwrapped (lead lang rest : string) (body : list string) :
  Forall (fun c => PyStr.is_space c = true) (list_ascii_of_string lead) ->
  PyText.mentions "010"%char lang = false ->
  Forall (fun l => PyText.mentions "010"%char l = false) body ->
  Forall (fun l => String.prefix FENCE l = false) body ->
  unfence (lead +:+ FENCE +:+ lang +:+ LF +:+ PyText.lines_text body +:+ FENCE +:+ rest) =
  PyText.join LF body.
Proof.
  intros Hlead Hlang Hlines Hfence. unfold unfence, PyStr.strip.
  rewrite (lstrip_spaces _ _ Hlead), lstrip_fence.
  replace (FENCE +:+ lang +:+ LF +:+ PyText.lines_text body +:+ FENCE +:+ rest)
    with ((FENCE +:+ lang +:+ LF +:+ PyText.lines_text body) +:+ (FENCE +:+ rest))
    by (by rewrite !append_assoc).
  rewrite rstrip_app_visible
    by (rewrite rstrip_fence; unfold FENCE; by rewrite append_cons).
  rewrite rstrip_fence, !append_assoc, prefix_fence.
  replace (FENCE +:+ lang +:+ LF +:+ PyText.lines_text body +:+ FENCE +:+ PyStr.rstrip rest)
    with ((FENCE +:+ lang) +:+
          String "010"%char (PyText.lines_text body +:+ FENCE +:+ PyStr.rstrip rest))
    by (by rewrite !append_assoc).
  rewrite split_at_separator
    by (rewrite mentions_app, Hlang; by unfold FENCE).
  rewrite (split_lines_text _ _ Hlines).
  destruct (split_fence_first (PyStr.rstrip rest)) as (h & t & ->).
  cbn [collect_block]. rewrite prefix_fence.
  by rewrite (collect_block_body _ _ _ Hfence).
Qed.

Lemma fenced_answer_is_unwrapped_witness :
  unfence ("  " +:+ FENCE +:+ "json" +:+ LF +:+
           PyText.lines_text ["{"; "  2"; "}"] +:+ FENCE +:+ LF +:+ "Done. ") =
  PyText.join LF ["{"; "  2"; "}"].
Proof.
  apply (fenced_answer_is_unwrapped "  " "json" (LF +:+ "Done. ")
           ["{"; "  2"; "}"]).
  - repeat constructor.
  - reflexivity.
  - repeat constructor.
  - repeat constructor.
Defined.

(** X2.  A fenced message on a single line -- its stripped content opens
    with a fence and holds no line feed -- leaves nothing to decode: the
    text on the fence line is dropped with the fence. *)
Theorem one_line_fence_is_emptied (raw : string) :
  String.prefix FENCE (PyStr.strip raw) = true ->
  PyText.mentions "010"%char (PyStr.strip raw) = false ->
  unfence raw = EmptyString.
Proof.
  intros Hfence Hline. unfold unfence. rewrite Hfence.
  rewrite (split_no_separator _ _ Hline). cbn [collect_block].
  by rewrite Hfence.
Qed.

Lemma one_line_fence_is_emptied_witness :
  String.prefix FENCE (PyStr.strip "```{choice: 1}``` ") = true /\
  PyText.mentions "010"%char (PyStr.strip "```{choice: 1}``` ") = false /\
  unfence "```{choice: 1}``` " = EmptyString.
Proof.
  split; [reflexivity |]. split; [reflexivity |].
  apply (one_line_fence_is_emptied "```{choice: 1}``` "); reflexivity.
Defined.

(* ===================================================================== *)
(** ** Properties of the rendering                                       *)
(* ===================================================================== *)

Lemma release_paragraphs_spec rs : forall i ps,
  release_paragraphs i rs = Some ps ->
  length ps = length rs /\
  forall (k : nat) r, rs !! k = Some r ->
    exists details,
      ps !! k = Some (PyNum.str_int (i + Z.of_nat k) +:+ ". " +:+
                      default "Unknown" (title r) +:+ LF +:+ details).
Proof.
  induction rs as [|r0 rs IH]; intros i ps; simpl.
  - intros [= <-]. split; [done |]. intros k r Hk. by rewrite lookup_nil in Hk.
  - unfold release_paragraph.
    destruct (release_details r0) as [d0|] eqn:Hd; [| done]. simpl.
    destruct (release_paragraphs (i + 1) rs) as [ps'|] eqn:Hps; [| done]. simpl.
    intros [= <-]. destruct (IH _ _ Hps) as [Hlen Hpar].
    split; [simpl; by rewrite Hlen |].
    intros [|k] r Hk; simpl in Hk.
    + simplify_eq. exists d0. simpl. by rewrite Z.add_0_r.
    + destruct (Hpar k r Hk) as [d Hd']. exists d. simpl. rewrite Hd'.
      do 3 f_equal. lia.
Qed.

(** X3.  In the text rendered for the model the releases come in the
    order of the payload, after a header that states their number, and the
    number printed in front of a release is the choice by which the handler
    selects that same release. *)
Theorem rendered_numbers_select (releases : list Release) (movie_title text : string) :
  releases <> [] ->
  format_releases_for_ai releases movie_title = Some text ->
  exists paragraphs,
    text = PyText.join LF (releases_header movie_title (length releases) :: paragraphs) /\
    length paragraphs = length releases /\
    forall (k : nat) r, releases !! k = Some r ->
      selected_release (Some (Z.of_nat k + 1)) releases = Some r /\
      exists details,
        paragraphs !! k =
        Some (PyNum.str_int (Z.of_nat k + 1) +:+ ". " +:+
              default "Unknown" (title r) +:+ LF +:+ details).
Proof.
  intros Hne. unfold format_releases_for_ai.
  destruct releases as [|r0 rs]; [done |].
  destruct (release_paragraphs 1 (r0 :: rs)) as [ps|] eqn:Hps; [| done].
  simpl. intros [= <-]. exists ps.
  destruct (release_paragraphs_spec _ _ _ Hps) as [Hlen Hpar].
  split; [done |]. split; [done |].
  intros k r Hk. split.
  - apply selected_release_in_range; [lia |].
    by replace (Z.to_nat (Z.of_nat k + 1 - 1)) with k by lia.
  - destruct (Hpar k r Hk) as [d Hd]. exists d. rewrite Hd.
    do 3 f_equal. lia.
Qed.

Lemma rendered_numbers_select_witness :
  exists paragraphs,
    format_releases_for_ai [Sample.rel_a; Sample.rel_b] "Movie" =
    Some (PyText.join LF (releases_header "Movie" 2 :: paragraphs)) /\
    length paragraphs = 2%nat.
Proof.
  destruct (rendered_numbers_select [Sample.rel_a; Sample.rel_b] "Movie"
              _ ltac:(discriminate) eq_refl) as (ps & Htext & Hlen & _).
  exists ps. split; [exact (f_equal Some Htext) | exact Hlen].
Defined.

Lemma rne_div_scale a b k :
  0 < b -> 0 < k -> PyNum.rne_div (a * k) (b * k) = PyNum.rne_div a b.
Proof.
  intros Hb Hk. unfold PyNum.rne_div.
  rewrite Z.div_mul_cancel_r, Z.mul_mod_distr_r by lia.
  assert ((2 * (a mod b * k) <? b * k) = (2 * (a mod b) <? b)) as ->.
  { destruct (Z.ltb_spec (2 * (a mod b * k)) (b * k)),
             (Z.ltb_spec (2 * (a mod b)) b); try done; nia. }
  assert ((b * k <? 2 * (a mod b * k)) = (b <? 2 * (a mod b))) as ->.
  { destruct (Z.ltb_spec (b * k) (2 * (a mod b * k))),
             (Z.ltb_spec b (2 * (a mod b))); try done; nia. }
  done.
Qed.

(** Two fractions of the same value round alike. *)
Lemma rne_div_same_value a b c d :
  0 < b -> 0 < d -> a * d = c * b -> PyNum.rne_div a b = PyNum.rne_div c d.
Proof.
  intros Hb Hd Hv.
  rewrite <- (rne_div_scale a b d), <- (rne_div_scale c d b) by lia.
  rewrite Hv. f_equal. lia.
Qed.

Lemma rne_div_exact a b : 0 < b -> PyNum.rne_div (a * b) b = a.
Proof.
  intros Hb. unfold PyNum.rne_div.
  rewrite Z.div_mul, Z.mod_mul by lia.
  by rewrite (proj2 (Z.ltb_lt (2 * 0) b)) by lia.
Qed.

Lemma flog2_gib p : 0 < p < 2 ^ 53 -> PyNum.flog2 p (2 ^ 30) <= 22.
Proof.
  intros Hp. unfold PyNum.flog2.
  destruct (Z.leb_spec (2 ^ 30) p) as [Hle | Hlt].
  - assert (0 < p / 2 ^ 30) by (apply Z.div_str_pos; lia).
    assert (p / 2 ^ 30 < 2 ^ 23) by (apply Z.div_lt_upper_bound; lia).
    assert (Z.log2 (p / 2 ^ 30) < 23) by (apply Z.log2_lt_pow2; lia). lia.
  - pose proof (Z.log2_up_nonneg ((2 ^ 30 + p - 1) / p)). lia.
Qed.

(** Dividing a number of bytes below [2^53] by [1024 ** 3] loses nothing. *)
Lemma round_gib_exact p :
  0 < p < 2 ^ 53 ->
  exists m e, PyNum.round_binary64 p (2 ^ 30) = Some (PyNum.PyFloat m e) /\
              e < 0 /\ 0 <= m /\ m * 2 ^ 30 = p * 2 ^ (- e).
Proof.
  intros Hp. pose proof (flog2_gib p Hp) as HE.
  unfold PyNum.round_binary64.
  set (e := Z.max (PyNum.flog2 p (2 ^ 30) - 52) (-1074)).
  assert (-1074 <= e <= -30) as He by (subst e; lia).
  rewrite (proj2 (Z.leb_gt 0 e)) by lia.
  rewrite (proj2 (Z.ltb_ge 971 e)) by lia.
  rewrite (proj2 (Z.eqb_neq e 971)) by lia.
  cbn [orb andb].
  assert (2 ^ (- e) = 2 ^ (- e - 30) * 2 ^ 30) as Hpow.
  { rewrite <- Z.pow_add_r by lia. f_equal. lia. }
  assert (0 < 2 ^ (- e - 30)) as Hpos by (apply Z.pow_pos_nonneg; lia).
  rewrite Hpow, Z.mul_assoc, rne_div_exact by lia.
  exists (p * 2 ^ (- e - 30)), e. repeat split; [lia | nia | lia].
Qed.

(** X4.  A size of fewer than [2^53] bytes is shown in GB as the exact
    quotient by [1024 ** 3] rounded to two decimals, ties to even: the
    float division in between loses nothing. *)
Theorem size_shown_to_two_decimals (r : Release) (n : Z) :
  default 0 (size r) = n ->
  0 <= n < 2 ^ 53 ->
  size_gb_str r =
  Some (PyNum.str_int (PyNum.rne_div (n * 100) (2 ^ 30) / 100) +:+ "." +:+
        PyText.two_digits (PyNum.rne_div (n * 100) (2 ^ 30) mod 100)).
Proof.
  intros Hsize Hn. unfold size_gb_str, PyNum.truediv. rewrite Hsize.
  cbn [PyNum.numer PyNum.denom].
  destruct (Z.eqb_spec n 0) as [-> | Hn0]; [reflexivity |].
  rewrite (proj2 (Z.ltb_lt 0 n)) by lia.
  replace (1 * Z.pos (2 ^ 30)) with (2 ^ 30) by reflexivity.
  destruct (round_gib_exact n ltac:(lia)) as (m & e & -> & He & Hm & Hv).
  cbn [mbind option_bind]. f_equal.
  unfold PyText.format_2f, PyText.hundredths.
  cbn [PyNum.numer PyNum.denom].
  rewrite (proj2 (Z.leb_gt 0 e)) by lia.
  rewrite (proj2 (Z.ltb_ge m 0)) by lia.
  rewrite Z.abs_eq by lia.
  assert (0 < 2 ^ (- e)) by (apply Z.pow_pos_nonneg; lia).
  rewrite (rne_div_same_value (m * 100) (2 ^ (- e)) (n * 100) (2 ^ 30)) by nia.
  by rewrite append_nil.
Qed.

Lemma size_shown_to_two_decimals_witness :
  default 0 (size Sample.rel_b) = 10737418240 /\
  0 <= 10737418240 < 2 ^ 53 /\
  size_gb_str Sample.rel_b = Some "10.00".
Proof.
  split; [reflexivity |]. split; [lia |].
  exact (size_shown_to_two_decimals Sample.rel_b 10737418240 eq_refl ltac:(lia)).
Defined.

Lemma size_gb_defined r :
  0 <= default 0 (size r) < 2 ^ 53 -> is_Some (size_gb_str r).
Proof.
  intros Hn. unfold size_gb_str, PyNum.truediv. cbn [PyNum.numer PyNum.denom].
  destruct (Z.eqb_spec (default 0 (size r)) 0) as [H0 | Hn0]; [by eexists |].
  rewrite (proj2 (Z.ltb_lt 0 _)) by lia.
  replace (1 * Z.pos (2 ^ 30)) with (2 ^ 30) by reflexivity.
  destruct (round_gib_exact (default 0 (size r)) ltac:(lia)) as (m & e & -> & _).
  by eexists.
Qed.

Lemma format_age_defined x :
  PyNum.binary64 x ->
  PyNum.numer x < 1440 * 2 ^ 43 * PyNum.denom x ->
  is_Some (format_age x).
Proof.
  intros Hb Hup. pose proof (denom_pos x) as HD.
  unfold format_age, PyNum.lt_int.
  destruct (PyNum.numer x <? 60 * PyNum.denom x) eqn:H60; [by eexists |].
  apply Z.ltb_ge in H60.
  destruct (PyNum.numer x <? 1440 * PyNum.denom x) eqn:H1440.
  - apply Z.ltb_lt in H1440.
    destruct (truediv_truncates x 60 Hb) as (f & -> & _); [lia | lia | nia |].
    by eexists.
  - apply Z.ltb_ge in H1440.
    destruct (truediv_truncates x 1440 Hb) as (f & -> & _); [lia | lia | lia |].
    by eexists.
Qed.

(** X5.  Rendering does not raise on releases whose sizes are below
    [2^53] bytes and whose ages are below [1440 * 2^43] minutes: the text
    for the model is produced, for every title and any number of
    releases. *)
Theorem rendering_succeeds (releases : list Release) (movie_title : string) :
  Forall (fun r =>
            0 <= default 0 (size r) < 2 ^ 53 /\
            PyNum.binary64 (default (PyNum.PyInt 0) (ageMinutes r)) /\
            PyNum.numer (default (PyNum.PyInt 0) (ageMinutes r)) <
              1440 * 2 ^ 43 * PyNum.denom (default (PyNum.PyInt 0) (ageMinutes r)))
         releases ->
  is_Some (format_releases_for_ai releases movie_title).
Proof.
  intros Hall. unfold format_releases_for_ai.
  destruct releases as [|r0 rs] eqn:E; [by eexists |]. rewrite <- E in *. clear E.
  assert (forall i, is_Some (release_paragraphs i releases)) as Hps.
  { induction Hall as [|r rs' (Hsize & Hb & Hage) _ IH]; intros i; [by eexists |].
    simpl. unfold release_paragraph, release_details, release_age_str.
    destruct (size_gb_defined r Hsize) as [g ->].
    destruct (format_age_defined _ Hb Hage) as [a ->].
    destruct (IH (i + 1)) as [ps ->]. by eexists. }
  destruct (Hps 1) as [ps ->]. by eexists.
Qed.

Lemma rendering_succeeds_witness :
  is_Some (format_releases_for_ai [Sample.rel_a; Sample.rel_b] "Movie").
Proof.
  apply (rendering_succeeds [Sample.rel_a; Sample.rel_b] "Movie").
  repeat constructor; simpl; lia.
Defined.

(* ===================================================================== *)
(** ** Properties of the manager lookups                                 *)
(* ===================================================================== *)

Lemma find_first {A} (f : A -> bool) (l : list A) (i : nat) (x : A) :
  l !! i = Some x -> f x = true ->
  (forall j y, (j < i)%nat -> l !! j = Some y -> f y = false) ->
  List.find f l = Some x.
Proof.
  revert i. induction l as [|a l IH]; intros i Hi Hx Hbefore; [by rewrite lookup_nil in Hi |].
  simpl. destruct i as [|i].
  - simpl in Hi. simplify_eq. by rewrite Hx.
  - rewrite (Hbefore 0%nat a ltac:(lia) eq_refl).
    apply (IH i); [done | done |].
    intros j y Hj Hy. apply (Hbefore (S j) y); [lia | done].
Qed.

Lemma find_none {A} (f : A -> bool) (l : list A) :
  Forall (fun x => f x = false) l -> List.find f l = None.
Proof. induction 1 as [|x l Hx _ IH]; simpl; [done | by rewrite Hx]. Qed.

(** X6.  The quality profile name is the name of the first profile whose
    id is the movie's [qualityProfileId] (0 when the movie has none), or
    "default" when that profile has no name; it is "default" as well when
    the movie or the profile list cannot be fetched and when no profile has
    that id. *)
Theorem profile_name_is_first_match (api : ArrApi) (movie_id : Z) :
  (forall movie profiles (i : nat) p,
      api_movie api movie_id = Some movie ->
      api_qualityprofile api = Some profiles ->
      profiles !! i = Some p ->
      profile_id p = Some (default 0 (qualityProfileId movie)) ->
      (forall (j : nat) q, (j < i)%nat -> profiles !! j = Some q ->
                           profile_id q <> Some (default 0 (qualityProfileId movie))) ->
      (get_quality_profile_name api movie_id).1 = default "default" (profile_label p)) /\
  (api_movie api movie_id = None -> (get_quality_profile_name api movie_id).1 = "default") /\
  (api_qualityprofile api = None -> (get_quality_profile_name api movie_id).1 = "default") /\
  (forall movie profiles,
      api_movie api movie_id = Some movie ->
      api_qualityprofile api = Some profiles ->
      Forall (fun q => profile_id q <> Some (default 0 (qualityProfileId movie))) profiles ->
      (get_quality_profile_name api movie_id).1 = "default").
Proof.
  unfold get_quality_profile_name. repeat split.
  - intros movie profiles i p -> -> Hi Hp Hbefore. simpl.
    rewrite (find_first _ profiles i p Hi); [done | by apply bool_decide_eq_true_2 |].
    intros j q Hj Hq. apply bool_decide_eq_false_2. by apply (Hbefore j q).
  - by intros ->.
  - intros ->. by destruct (api_movie api movie_id).
  - intros movie profiles -> -> Hnone. simpl.
    rewrite find_none; [done |].
    eapply Forall_impl; [exact Hnone |]. intros q Hq. by apply bool_decide_eq_false_2.
Qed.

Lemma lower_idempotent s : PyStr.lower (PyStr.lower s) = PyStr.lower s.
Proof.
  induction s as [|c s IH]; simpl; [done |]. by rewrite lower_char_idempotent, IH.
Qed.

(** What the tag map holds under an id comes from a tag with that id. *)
Lemma tag_map_step_lookup acc t m i l :
  tag_map_step acc t = Some m -> m !! i = Some l ->
  (exists m0, acc = Some m0 /\ m0 !! i = Some l) \/
  (tag_id t = Some i /\ exists label, tag_label t = Some label /\ l = PyStr.lower label).
Proof.
  unfold tag_map_step. destruct acc as [m0|]; [| done]. simpl.
  destruct (tag_id t) as [j|]; [| done]. simpl.
  destruct (tag_label t) as [label|]; [| done]. simpl.
  intros [= <-]. destruct (decide (j = i)) as [-> | Hne].
  - rewrite lookup_insert_eq. intros [= <-]. right. eauto.
  - rewrite lookup_insert_ne by done. intros Hl. left. eauto.
Qed.

Lemma tag_map_fold_lookup all_tags : forall acc m i l,
  foldl tag_map_step acc all_tags = Some m -> m !! i = Some l ->
  (exists m0, acc = Some m0 /\ m0 !! i = Some l) \/
  (exists t label, t ∈ all_tags /\ tag_id t = Some i /\
                   tag_label t = Some label /\ l = PyStr.lower label).
Proof.
  induction all_tags as [|t ts IH]; intros acc m i l; simpl.
  - intros -> Hl. left. eauto.
  - intros Hfold Hl. destruct (IH _ _ _ _ Hfold Hl) as [(m1 & Hstep & Hl1) | Hin].
    + destruct (tag_map_step_lookup _ _ _ _ _ Hstep Hl1) as [Hacc | (Hid & label & Hlab & ->)];
        [by left |].
      right. exists t, label. split; [left | done].
    + destruct Hin as (t' & label & Hin & ?). right. exists t', label.
      split; [by right | done].
Qed.

(** X7.  Every tag that [get_movie_tags] returns is the lower-cased label
    of a tag of the manager whose id is among the movie's tag ids; no tag
    is made up, and none carries a capital letter. *)
Theorem movie_tags_are_lowercase_labels (api : ArrApi) (movie_id : Z) (name : string) :
  name ∈ (get_movie_tags api movie_id).1 ->
  PyStr.lower name = name /\
  exists movie all_tags t i label,
    api_movie api movie_id = Some movie /\ api_tag api = Some all_tags /\
    i ∈ default [] (movie_tags movie) /\ t ∈ all_tags /\
    tag_id t = Some i /\ tag_label t = Some label /\ name = PyStr.lower label.
Proof.
  unfold get_movie_tags.
  destruct (api_movie api movie_id) as [movie|]; [| by intros ?%elem_of_nil].
  destruct (default [] (movie_tags movie)) as [|i0 ids] eqn:Hids;
    [by intros ?%elem_of_nil |].
  destruct (api_tag api) as [all_tags|]; [| by intros ?%elem_of_nil].
  cbn [fst]. destruct (tag_map all_tags) as [m|] eqn:Hm; [| by intros ?%elem_of_nil].
  intros (i & Hi & Hl)%list_elem_of_omap.
  destruct (tag_map_fold_lookup _ _ _ _ _ Hm Hl)
    as [(m0 & [= <-] & H0) | (t & label & Hin & Hid & Hlab & ->)];
    [by rewrite lookup_empty in H0 |].
  split; [apply lower_idempotent |].
  exists movie, all_tags, t, i, label. rewrite Hids. by repeat split.
Qed.

Lemma profile_name_is_first_match_witness :
  (get_quality_profile_name SampleArr.api 7).1 = "HD-1080p" /\
  (get_quality_profile_name SampleArr.api 8).1 = "default".
Proof.
  destruct (profile_name_is_first_match SampleArr.api 7) as (Hfirst & _).
  destruct (profile_name_is_first_match SampleArr.api 8) as (_ & Hdown & _).
  split.
  - apply (Hfirst SampleArr.movie_7 [SampleArr.profile_any; SampleArr.profile_hd]
             1%nat SampleArr.profile_hd); [reflexivity | reflexivity | reflexivity | reflexivity |].
    intros [|j] q Hj Hq; [by simplify_eq/= | lia].
  - apply Hdown. reflexivity.
Defined.

Lemma movie_tags_are_lowercase_labels_witness :
  "no-ai" ∈ (get_movie_tags SampleArr.api 7).1 /\
  PyStr.lower "no-ai" = "no-ai".
Proof.
  assert ("no-ai" ∈ (get_movie_tags SampleArr.api 7).1) as Hin
    by (vm_compute; left).
  split; [exact Hin |].
  exact (proj1 (movie_tags_are_lowercase_labels SampleArr.api 7 "no-ai" Hin)).
Defined.

(* ===================================================================== *)
(** ** Properties of the handlers and the manager together               *)
(* ===================================================================== *)

(** A well-formed tag list always yields a map, and the map knows every
    id of the list. *)
Lemma tag_map_fold_defined all_tags :
  Forall (fun t => is_Some (tag_id t) /\ is_Some (tag_label t)) all_tags ->
  forall m0, exists m,
    foldl tag_map_step (Some m0) all_tags = Some m /\
    (forall i, is_Some (m0 !! i) -> is_Some (m !! i)) /\
    (forall t i, t ∈ all_tags -> tag_id t = Some i -> is_Some (m !! i)).
Proof.
  induction 1 as [|t ts [[j Hj] [l Hl]] _ IH]; intros m0.
  - exists m0. split; [done |]. split; [done |]. by intros t i ?%elem_of_nil.
  - destruct (IH (<[j := PyStr.lower l]> m0)) as (m & Hm & Hkeep & Hids).
    exists m. split; [| split].
    + cbn [foldl].
      replace (tag_map_step (Some m0) t) with (Some (<[j := PyStr.lower l]> m0));
        [exact Hm |].
      unfold tag_map_step. simpl. by rewrite Hj, Hl.
    + intros i Hi. apply Hkeep.
      destruct (decide (j = i)) as [-> | Hne];
        [rewrite lookup_insert_eq; by eexists | by rewrite lookup_insert_ne].
    + intros t' i [-> | Hin]%elem_of_cons Hid.
      * apply Hkeep. rewrite Hj in Hid. simplify_eq.
        rewrite lookup_insert_eq. by eexists.
      * by apply (Hids t' i).
Qed.

(** The tag of a media item, as the handler sees it. *)
Lemma get_movie_tags_has api movie_id movie all_tags i t label :
  api_movie api movie_id = Some movie ->
  i ∈ default [] (movie_tags movie) ->
  api_tag api = Some all_tags ->
  Forall (fun t => is_Some (tag_id t) /\ is_Some (tag_label t)) all_tags ->
  t ∈ all_tags -> tag_id t = Some i -> tag_label t = Some label ->
  (forall t', t' ∈ all_tags -> tag_id t' = Some i -> t' = t) ->
  PyStr.lower label ∈ (get_movie_tags api movie_id).1.
Proof.
  intros Hmovie Hi Htags Hwf Hin Hid Hlab Huniq.
  unfold get_movie_tags. rewrite Hmovie.
  destruct (default [] (movie_tags movie)) as [|i0 ids] eqn:Hids;
    [by apply elem_of_nil in Hi |].
  rewrite Htags. cbn [fst]. unfold tag_map.
  destruct (tag_map_fold_defined all_tags Hwf ∅) as (m & Hm & _ & Hknown).
  rewrite Hm. apply list_elem_of_omap. exists i. split; [exact Hi |].
  destruct (Hknown t i Hin Hid) as [l Hl]. rewrite Hl. f_equal.
  destruct (tag_map_fold_lookup _ _ _ _ _ Hm Hl)
    as [(m1 & [= <-] & H0) | (t' & label' & Hin' & Hid' & Hlab' & ->)];
    [by rewrite lookup_empty in H0 |].
  rewrite (Huniq t' Hin' Hid') in Hlab'. congruence.
Qed.

Lemma load_config_inr py_int fs env s :
  load_config py_int fs env = inr s ->
  config_errors env = [] /\
  skip_tag (engine s) = PyStr.lower (str_or (getenv env "SKIP_TAG") "no-ai") /\
  radarr (engine s) =
    (arr_from_env (getenv env "RADARR_URL") (getenv env "RADARR_API_KEY") EmptyString).1 /\
  sonarr (engine s) =
    (arr_from_env (getenv env "SONARR_URL") (getenv env "SONARR_API_KEY") EmptyString).1 /\
  ntfy_url s = str_or_none (getenv env "NTFY_URL") /\
  ntfy_topic s = str_or (getenv env "NTFY_TOPIC") "arr-llm-release-picker" /\
  llm_api_url s = getenv env "LLM_API_URL" /\
  llm_model s = getenv env "LLM_MODEL" /\
  llm_api_key s = str_or_none (getenv env "LLM_API_KEY").
Proof.
  unfold load_config. destruct (config_errors env); [| discriminate].
  intros [= <-]. by repeat split.
Qed.

(** X8.  The skip tag is matched without regard to letter case on either
    side: [load_config] lower-cases [SKIP_TAG] (stripped, "no-ai" when
    blank) and the lookup lower-cases the manager's labels.  So a media item
    tagged with a tag whose label is the configured one up to case is
    skipped, provided the manager's tag list is well formed (every tag has
    an id and a label) and the id names that tag only. *)
Theorem skip_tag_matches_any_case py_int fs py_repr svc env s api a payload
    id movie all_tags i t label :
  load_config py_int fs env = inr s ->
  is_Some (arr_config svc (engine s)) ->
  eventType payload = Some "DownloadDecisionOverride" ->
  releases payload ≠ [] ->
  request_media_id payload = Some id ->
  api_movie api id = Some movie ->
  i ∈ default [] (movie_tags movie) ->
  api_tag api = Some all_tags ->
  Forall (fun t => is_Some (tag_id t) /\ is_Some (tag_label t)) all_tags ->
  t ∈ all_tags -> tag_id t = Some i -> tag_label t = Some label ->
  (forall t', t' ∈ all_tags -> tag_id t' = Some i -> t' = t) ->
  PyStr.lower label = PyStr.lower (str_or (getenv env "SKIP_TAG") "no-ai") ->
  webhook_override py_repr svc (engine s) (api_world api a) (Some payload) =
  (({| approved := true; selectedReleaseGuid := None;
       reason := JStr ("Skipped: tag " +:+
                       PyStr.lower (str_or (getenv env "SKIP_TAG") "no-ai") +:+
                       " present") |}, 200),
   [TagsLookup svc id]).
Proof.
  intros Hload Hcfg Hev Hrel Hid Hmovie Hi Htags Hwf Hin Htid Hlab Huniq Hcase.
  destruct (load_config_inr _ _ _ _ Hload) as (_ & Hskip & _).
  assert (skip_tag (engine s) ∈ request_tags (api_world api a) payload) as Hhas.
  { unfold request_tags. rewrite Hid, Hskip, <- Hcase. simpl.
    by apply (get_movie_tags_has api id movie all_tags i t label). }
  destruct Hcfg as [c Hc]. unfold request_tags in Hhas. rewrite Hid in Hhas.
  unfold webhook_override. rewrite Hc, Hev. simpl.
  rewrite (bool_decide_eq_false_2 _ Hrel).
  fold (request_media_id payload). rewrite Hid. simpl.
  rewrite (bool_decide_eq_true_2 _ Hhas). by rewrite Hskip.
Qed.

Lemma skip_tag_matches_any_case_witness :
  webhook_override Sample.repr Radarr (engine SampleArr.settings)
    (api_world SampleArr.api (Sample.answer 1 "smallest"))
    (Some (Sample.payload [Sample.rel_a])) =
  (({| approved := true; selectedReleaseGuid := None;
       reason := JStr "Skipped: tag no-ai present" |}, 200),
   [TagsLookup Radarr 7]).
Proof.
  apply (skip_tag_matches_any_case SampleArr.py_int SampleArr.fs Sample.repr Radarr
           SampleArr.env SampleArr.settings SampleArr.api
           (Sample.answer 1 "smallest") (Sample.payload [Sample.rel_a])
           7 SampleArr.movie_7 [SampleArr.tag_kids; SampleArr.tag_no_ai]
           2 SampleArr.tag_no_ai "No-AI").
  - vm_compute. reflexivity.
  - by eexists.
  - reflexivity.
  - discriminate.
  - reflexivity.
  - reflexivity.
  - vm_compute. left.
  - reflexivity.
  - repeat constructor; by eexists.
  - vm_compute. right. left.
  - reflexivity.
  - reflexivity.
  - intros t' [-> | [-> | []%elem_of_nil]%elem_of_cons]%elem_of_cons; [discriminate | done].
  - vm_compute. reflexivity.
Defined.

(** X9.  When the manager does not answer the request for the media item,
    the handler does not skip and does not fail: both lookups are made, the
    item counts as untagged, the profile name is "default", and the model is
    asked under that name. *)
Theorem unreachable_manager_fails_open py_repr svc cfg api a payload id :
  is_Some (arr_config svc cfg) ->
  eventType payload = Some "DownloadDecisionOverride" ->
  releases payload ≠ [] ->
  request_media_id payload = Some id ->
  api_movie api id = None ->
  webhook_override py_repr svc cfg (api_world api a) (Some payload) =
  let '((choice, reason), t_ai) :=
    ask_ai_for_selection cfg (api_world api a) (releases payload)
      (request_title payload) "default" (service_name svc) in
  conclude py_repr svc cfg (api_world api a) payload choice reason
    ([TagsLookup svc id; ProfileLookup svc id] ++ t_ai).
Proof.
  intros Hcfg Hev Hrel Hid Hdown.
  assert (request_tags (api_world api a) payload = []) as Htags.
  { unfold request_tags. rewrite Hid. simpl. unfold get_movie_tags. by rewrite Hdown. }
  assert (request_profile_name (api_world api a) payload = "default") as Hprofile.
  { unfold request_profile_name. rewrite Hid. simpl.
    unfold get_quality_profile_name. by rewrite Hdown. }
  rewrite (webhook_override_reaches py_repr svc cfg (api_world api a) payload).
  - rewrite Hprofile. unfold lookups. rewrite Hid. reflexivity.
  - split; [exact Hcfg |]. split; [exact Hev |]. split; [exact Hrel |].
    rewrite Htags. by intros ?%elem_of_nil.
Qed.

Lemma unreachable_manager_fails_open_witness :
  webhook_override Sample.repr Radarr Sample.cfg
    (api_world SampleArr.api_down (Sample.answer 1 "smallest"))
    (Some (Sample.payload [Sample.rel_a])) =
  (({| approved := true; selectedReleaseGuid := None;
       reason := JStr "AI bypassed - no prompt for this profile" |}, 200),
   [TagsLookup Radarr 7; ProfileLookup Radarr 7]).
Proof.
  rewrite (unreachable_manager_fails_open Sample.repr Radarr Sample.cfg
             SampleArr.api_down (Sample.answer 1 "smallest")
             (Sample.payload [Sample.rel_a]) 7);
    [reflexivity | by eexists | reflexivity | discriminate | reflexivity | reflexivity].
Defined.

(** The calls of a request, by kind. *)
Lemma conclude_trace py_repr svc cfg w payload choice reason t :
  exists t_note,
    (conclude py_repr svc cfg w payload choice reason t).2 = t ++ t_note /\
    (t_note = [] \/
     (exists title message,
         t_note = [FailureNotification title message "low" ["warning"]]) \/
     (exists title profile_name selected_title bytes why,
         t_note = [OverrideNotification title profile_name selected_title bytes why
                     [override_tag svc]])) /\
    (is_bypass choice reason = true -> t_note = []).
Proof.
  unfold conclude. destruct (is_bypass choice reason).
  { exists []. rewrite app_nil_r. split; [done |]. split; [by left | done]. }
  destruct (selected_release choice (releases payload)) as [r|].
  - destruct (match default_selected (releases payload) with
              | Some d => bool_decide (guid d = guid r)
              | None => false
              end).
    { exists []. rewrite app_nil_r. split; [done |]. split; [by left | done]. }
    destruct (dry_run cfg).
    { exists []. rewrite app_nil_r. split; [done |]. split; [by left | done]. }
    eexists. split; [reflexivity |]. split; [| done]. right. right. by repeat eexists.
  - eexists. split; [reflexivity |]. split; [| done]. right. left. by repeat eexists.
Qed.

(** X10.  A media item that carries the skip tag is left to the manager:
    the answer is "Skipped: tag <tag> present" without a selected guid, and
    the tag lookup is the only call made.  Conversely the handler stops
    after the tag lookup for no other reason: when the tag lookup is the
    only call of an override request with releases, the item carries the
    skip tag. *)
Theorem skip_tag_short_circuits py_repr svc cfg w payload :
  is_Some (arr_config svc cfg) ->
  eventType payload = Some "DownloadDecisionOverride" ->
  releases payload ≠ [] ->
  (skip_tag cfg ∈ request_tags w payload ->
   exists id, request_media_id payload = Some id /\
   webhook_override py_repr svc cfg w (Some payload) =
   (({| approved := true; selectedReleaseGuid := None;
        reason := JStr ("Skipped: tag " +:+ skip_tag cfg +:+ " present") |}, 200),
    [TagsLookup svc id])) /\
  (forall id, (webhook_override py_repr svc cfg w (Some payload)).2 = [TagsLookup svc id] ->
              skip_tag cfg ∈ request_tags w payload).
Proof.
  intros Hcfg Hev Hrel. split.
  - destruct Hcfg as [a Ha]. intros Hskip.
    unfold request_tags in Hskip.
    destruct (request_media_id payload) as [id|] eqn:Hid;
      [| by apply elem_of_nil in Hskip].
    exists id. split; [done |].
    unfold webhook_override. rewrite Ha, Hev. simpl.
    rewrite (bool_decide_eq_false_2 _ Hrel).
    fold (request_media_id payload). rewrite Hid. simpl.
    by rewrite (bool_decide_eq_true_2 _ Hskip).
  - intros id Honly.
    destruct (decide (skip_tag cfg ∈ request_tags w payload)) as [Hskip|Hskip];
      [exact Hskip | exfalso].
    assert (reaches_ai svc cfg w payload) as Hreach by done.
    rewrite (webhook_override_reaches py_repr _ _ _ _ Hreach) in Honly.
    pose proof (ask_ai_trace cfg w (releases payload) (request_title payload)
                  (request_profile_name w payload) (service_name svc)) as Hai.
    destruct (ask_ai_for_selection _ _ _ _ _ _) as [[choice reason] t_ai].
    simpl in Hai.
    destruct (conclude_trace py_repr svc cfg w payload choice reason
                (lookups svc payload ++ t_ai)) as (t_note & Ht & Hshape & _).
    rewrite Ht in Honly. unfold lookups in Honly.
    destruct (request_media_id payload) as [i|]; [discriminate Honly |].
    simpl in Honly. subst t_ai.
    destruct (get_system_prompt_for_profile cfg (service_name svc)
                (request_profile_name w payload)); [discriminate Honly |].
    simpl in Honly.
    destruct Hshape as [-> | [(ti & msg & ->) | (ti & pn & st & b & why & ->)]];
      discriminate Honly.
Qed.

Lemma skip_tag_short_circuits_witness :
  exists id, request_media_id (Sample.payload [Sample.rel_a]) = Some id /\
  webhook_override Sample.repr Radarr Sample.cfg
    (api_world SampleArr.api (Sample.answer 1 "smallest"))
    (Some (Sample.payload [Sample.rel_a])) =
  (({| approved := true; selectedReleaseGuid := None;
       reason := JStr ("Skipped: tag " +:+ skip_tag Sample.cfg +:+ " present") |}, 200),
   [TagsLookup Radarr id]).
Proof.
  destruct (skip_tag_short_circuits Sample.repr Radarr Sample.cfg
              (api_world SampleArr.api (Sample.answer 1 "smallest"))
              (Sample.payload [Sample.rel_a])) as [Hskipped _].
  - by eexists.
  - reflexivity.
  - discriminate.
  - apply Hskipped. vm_compute. left.
Defined.

Lemma webhook_override_trace py_repr svc cfg w body :
  exists t_lookup t_model t_note,
    (webhook_override py_repr svc cfg w body).2 = t_lookup ++ t_model ++ t_note /\
    (t_lookup = [] \/ (exists id, t_lookup = [TagsLookup svc id]) \/
     (exists id, t_lookup = [TagsLookup svc id; ProfileLookup svc id])) /\
    (t_model = [] \/
     exists system_prompt media_title profile_name rs,
       t_model = [ModelCall system_prompt media_title profile_name rs]) /\
    (t_note = [] \/
     (exists title message,
         t_note = [FailureNotification title message "low" ["warning"]]) \/
     (exists title profile_name selected_title bytes why,
         t_note = [OverrideNotification title profile_name selected_title bytes why
                     [override_tag svc]])) /\
    (t_model = [] -> t_note = []).
Proof.
  assert (forall t, t = [] ->
            exists t_lookup t_model t_note : list event,
              t = t_lookup ++ t_model ++ t_note /\
              (t_lookup = [] \/ (exists id, t_lookup = [TagsLookup svc id]) \/
               (exists id, t_lookup = [TagsLookup svc id; ProfileLookup svc id])) /\
              (t_model = [] \/
               exists system_prompt media_title profile_name rs,
                 t_model = [ModelCall system_prompt media_title profile_name rs]) /\
              (t_note = [] \/
               (exists title message,
                   t_note = [FailureNotification title message "low" ["warning"]]) \/
               (exists title profile_name selected_title bytes why,
                   t_note = [OverrideNotification title profile_name selected_title
                               bytes why [override_tag svc]])) /\
              (t_model = [] -> t_note = [])) as Hnone.
  { intros t ->. exists [], [], []. repeat split; by left. }
  destruct body as [payload|];
    [| apply Hnone; unfold webhook_override; by destruct (arr_config svc cfg)].
  destruct (reaches_ai_dec svc cfg w payload) as [Hr|Hr].
  - rewrite (webhook_override_reaches py_repr _ _ _ _ Hr).
    assert (lookups svc payload = [] \/
            exists id, lookups svc payload = [TagsLookup svc id; ProfileLookup svc id])
      as Hlook.
    { unfold lookups. destruct (request_media_id payload) as [id|]; [right | left];
        [by exists id | done]. }
    unfold ask_ai_for_selection.
    destruct (get_system_prompt_for_profile cfg (service_name svc)
                (request_profile_name w payload)) as [sp|].
    + assert (forall cr : option Z * json,
                exists t_note,
                  (conclude py_repr svc cfg w payload cr.1 cr.2
                     (lookups svc payload ++
                      [ModelCall sp (request_title payload)
                         (request_profile_name w payload) (releases payload)])).2 =
                  lookups svc payload ++
                  [ModelCall sp (request_title payload)
                     (request_profile_name w payload) (releases payload)] ++ t_note /\
                  (t_note = [] \/
                   (exists title message,
                       t_note = [FailureNotification title message "low" ["warning"]]) \/
                   (exists title profile_name selected_title bytes why,
                       t_note = [OverrideNotification title profile_name selected_title
                                   bytes why [override_tag svc]]))) as Hcr.
      { intros cr.
        destruct (conclude_trace py_repr svc cfg w payload cr.1 cr.2
                    (lookups svc payload ++
                     [ModelCall sp (request_title payload)
                        (request_profile_name w payload) (releases payload)]))
          as (t_note & Ht & Hshape & _).
        exists t_note. split; [| exact Hshape]. rewrite Ht. by rewrite <- !app_assoc. }
      assert (exists cr : option Z * json,
                (let '(choice, reason, t_ai) :=
                   match model_answer w with
                   | Raised e =>
                       (None, JStr e,
                        [ModelCall sp (request_title payload)
                           (request_profile_name w payload) (releases payload)])
                   | RaisedJSONDecodeError e =>
                       (None, JStr ("Invalid JSON response: " +:+ e),
                        [ModelCall sp (request_title payload)
                           (request_profile_name w payload) (releases payload)])
                   | Decoded parsed =>
                       (interpret_answer parsed,
                        [ModelCall sp (request_title payload)
                           (request_profile_name w payload) (releases payload)])
                   end in
                 conclude py_repr svc cfg w payload choice reason
                   (lookups svc payload ++ t_ai)) =
                conclude py_repr svc cfg w payload cr.1 cr.2
                  (lookups svc payload ++
                   [ModelCall sp (request_title payload)
                      (request_profile_name w payload) (releases payload)])) as [cr ->].
      { destruct (model_answer w) as [e|e|parsed].
        - by exists (None, JStr e).
        - by exists (None, JStr ("Invalid JSON response: " +:+ e)).
        - exists (interpret_answer parsed). by destruct (interpret_answer parsed). }
      destruct (Hcr cr) as (t_note & Ht & Hshape).
      exists (lookups svc payload), [ModelCall sp (request_title payload)
                (request_profile_name w payload) (releases payload)], t_note.
      split; [exact Ht |]. split.
      { destruct Hlook as [-> | [id ->]]; [by left | right; right; by exists id]. }
      split; [right; by repeat eexists |]. split; [exact Hshape | discriminate].
    + exists (lookups svc payload), [], []. split; [by rewrite !app_nil_r |].
      split.
      { destruct Hlook as [-> | [id ->]]; [by left | right; right; by exists id]. }
      repeat split; by left.
  - unfold webhook_override.
    destruct (arr_config svc cfg) as [c|] eqn:Hc; [| by apply Hnone].
    case_bool_decide as Hev; [by apply Hnone |].
    case_bool_decide as Hrel; [by apply Hnone |].
    fold (request_media_id payload). fold (request_tags w payload).
    case_bool_decide as Hskip.
    + destruct (request_media_id payload) as [id|]; [| by apply Hnone].
      exists [TagsLookup svc id], [], []. split; [done |].
      split; [right; left; by exists id |]. repeat split; by left.
    + exfalso. apply Hr. repeat split; [by eexists | | done | done].
      destruct (eventType payload) as [e|]; simpl in Hev; [by subst | discriminate].
Qed.

(** X11.  The calls of one webhook request come in a fixed order and
    number: at most two manager lookups, then at most one model call, then
    at most one notification; and a notification is sent only after the
    model was called. *)
Theorem handler_calls_in_order py_repr svc cfg w body :
  exists t_lookup t_model t_note,
    (webhook_override py_repr svc cfg w body).2 = t_lookup ++ t_model ++ t_note /\
    Forall (fun ev => is_model_call ev = false /\ is_notification ev = false) t_lookup /\
    Forall (fun ev => is_model_call ev = true) t_model /\
    Forall (fun ev => is_notification ev = true) t_note /\
    (length t_lookup <= 2)%nat /\ (length t_model <= 1)%nat /\
    (length t_note <= 1)%nat /\
    (t_model = [] -> t_note = []).
Proof.
  destruct (webhook_override_trace py_repr svc cfg w body)
    as (t_lookup & t_model & t_note & Ht & Hlookup & Hmodel & Hnote & Hafter).
  exists t_lookup, t_model, t_note. split; [exact Ht |].
  assert (Forall (fun ev => is_model_call ev = false /\ is_notification ev = false)
                 t_lookup /\ (length t_lookup <= 2)%nat) as [? ?].
  { destruct Hlookup as [-> | [[id ->] | [id ->]]]; simpl;
      (split; [repeat constructor | lia]). }
  assert (Forall (fun ev => is_model_call ev = true) t_model /\
          (length t_model <= 1)%nat) as [? ?].
  { destruct Hmodel as [-> | (sp & mt & pn & rs & ->)]; simpl;
      (split; [repeat constructor | lia]). }
  assert (Forall (fun ev => is_notification ev = true) t_note /\
          (length t_note <= 1)%nat) as [? ?].
  { destruct Hnote as [-> | [(ti & msg & ->) | (ti & pn & st & b & why & ->)]]; simpl;
      (split; [repeat constructor | lia]). }
  done.
Qed.

(** X12.  A payload whose media id is missing or 0 is handled without the
    manager: no tag lookup and no profile lookup is made, and the model and
    the override notification see the profile name "unknown". *)
Theorem missing_media_id_asks_no_manager py_repr svc cfg w payload :
  request_media_id payload = None ->
  Forall (fun ev => match ev with
                    | TagsLookup _ _ | ProfileLookup _ _ => False
                    | ModelCall _ _ profile_name _ => profile_name = "unknown"
                    | OverrideNotification _ profile_name _ _ _ _ =>
                        profile_name = "unknown"
                    | FailureNotification _ _ _ _ => True
                    end)
         (webhook_override py_repr svc cfg w (Some payload)).2.
Proof.
  intros Hid. destruct (reaches_ai_dec svc cfg w payload) as [Hr|Hr].
  - rewrite (webhook_override_reaches py_repr _ _ _ _ Hr).
    unfold lookups, request_profile_name. rewrite Hid. simpl.
    unfold ask_ai_for_selection.
    destruct (get_system_prompt_for_profile cfg (service_name svc) "unknown") as [sp|];
      [| by constructor].
    assert (forall choice reason,
              Forall (fun ev => match ev with
                    | TagsLookup _ _ | ProfileLookup _ _ => False
                    | ModelCall _ _ profile_name _ => profile_name = "unknown"
                    | OverrideNotification _ profile_name _ _ _ _ =>
                        profile_name = "unknown"
                    | FailureNotification _ _ _ _ => True
                    end)
                (conclude py_repr svc cfg w payload choice reason
                   [ModelCall sp (request_title payload) "unknown" (releases payload)]).2)
      as Hconclude.
    { intros choice reason. unfold conclude, request_profile_name. rewrite Hid.
      repeat case_match; simpl; repeat constructor. }
    destruct (model_answer w) as [e|e|parsed]; [apply Hconclude | apply Hconclude |].
    destruct (interpret_answer parsed). apply Hconclude.
  - unfold webhook_override.
    destruct (arr_config svc cfg) as [c|] eqn:Hc; [| constructor].
    case_bool_decide as Hev; [constructor |].
    case_bool_decide as Hrel; [constructor |].
    fold (request_media_id payload). rewrite Hid. cbn [from_option].
    case_bool_decide as Hskip; [by apply elem_of_nil in Hskip |].
    exfalso. apply Hr. repeat split; [by eexists | | done |].
    + destruct (eventType payload) as [e|]; simpl in Hev; [by subst | discriminate].
    + unfold request_tags. rewrite Hid. by intros ?%elem_of_nil.
Qed.

Lemma missing_media_id_asks_no_manager_witness :
  (webhook_override Sample.repr Radarr SampleArr.cfg_unknown
     (api_world SampleArr.api (Sample.answer 2 "better source"))
     (Some SampleArr.payload_without_id)).2 =
  [ModelCall "Prefer small releases." "Movie" "unknown" [Sample.rel_a; Sample.rel_b];
   OverrideNotification "AI Override: Movie" "unknown" "Movie.2020.1080p.BluRay"
     10737418240 (JStr "better source") ["movie_camera"]] /\
  Forall (fun ev => match ev with
                    | TagsLookup _ _ | ProfileLookup _ _ => False
                    | ModelCall _ _ profile_name _ => profile_name = "unknown"
                    | OverrideNotification _ profile_name _ _ _ _ =>
                        profile_name = "unknown"
                    | FailureNotification _ _ _ _ => True
                    end)
         (webhook_override Sample.repr Radarr SampleArr.cfg_unknown
            (api_world SampleArr.api (Sample.answer 2 "better source"))
            (Some SampleArr.payload_without_id)).2.
Proof.
  split; [vm_compute; reflexivity |].
  apply (missing_media_id_asks_no_manager Sample.repr Radarr SampleArr.cfg_unknown
           (api_world SampleArr.api (Sample.answer 2 "better source"))
           SampleArr.payload_without_id).
  reflexivity.
Defined.

(* ===================================================================== *)
(** ** Properties of the configuration                                   *)
(* ===================================================================== *)

Lemma arr_from_env_errors arr_url arr_api_key error :
  (arr_from_env arr_url arr_api_key error).2 = [] <->
  (arr_url = EmptyString <-> arr_api_key = EmptyString).
Proof.
  unfold arr_from_env. repeat case_bool_decide; simpl; split; try done; tauto.
Qed.

Lemma arr_from_env_connection arr_url arr_api_key error :
  (arr_from_env arr_url arr_api_key error).1 = None <->
  (arr_url = EmptyString \/ arr_api_key = EmptyString).
Proof.
  unfold arr_from_env. repeat case_bool_decide; simpl; split; try done; tauto.
Qed.

Lemma config_errors_nil env :
  config_errors env = [] <->
  getenv env "LLM_API_URL" ≠ EmptyString /\
  getenv env "LLM_MODEL" ≠ EmptyString /\
  (getenv env "RADARR_URL" = EmptyString <-> getenv env "RADARR_API_KEY" = EmptyString) /\
  (getenv env "SONARR_URL" = EmptyString <-> getenv env "SONARR_API_KEY" = EmptyString) /\
  (getenv env "RADARR_URL" ≠ EmptyString \/ getenv env "SONARR_URL" ≠ EmptyString).
Proof.
  unfold config_errors. cbv zeta.
  pose proof (arr_from_env_errors (getenv env "RADARR_URL") (getenv env "RADARR_API_KEY")
                "RADARR_URL and RADARR_API_KEY (both required if using Radarr)") as Hr2.
  pose proof (arr_from_env_connection (getenv env "RADARR_URL") (getenv env "RADARR_API_KEY")
                "RADARR_URL and RADARR_API_KEY (both required if using Radarr)") as Hr1.
  pose proof (arr_from_env_errors (getenv env "SONARR_URL") (getenv env "SONARR_API_KEY")
                "SONARR_URL and SONARR_API_KEY (both required if using Sonarr)") as Hs2.
  pose proof (arr_from_env_connection (getenv env "SONARR_URL") (getenv env "SONARR_API_KEY")
                "SONARR_URL and SONARR_API_KEY (both required if using Sonarr)") as Hs1.
  destruct (arr_from_env (getenv env "RADARR_URL") _ _) as [r er].
  destruct (arr_from_env (getenv env "SONARR_URL") _ _) as [s es].
  simpl in *.
  destruct (decide (getenv env "LLM_API_URL" = EmptyString)) as [Hu|Hu];
    destruct (decide (getenv env "LLM_MODEL" = EmptyString)) as [Hm|Hm];
    destruct er as [|e1 er]; destruct es as [|e2 es];
    repeat case_bool_decide; simpl in *; subst;
    (split; [intros Hnil; try discriminate Hnil | intros (? & ? & Hrr & Hss & Hone)]);
    try done; try tauto;
    try (by destruct er); try (by apply Hr2 in Hrr); try (by apply Hs2 in Hss).
  all: repeat split; try done; try tauto.
Qed.

(** X13.  [load_config] returns a configuration exactly when, after
    stripping, [LLM_API_URL] and [LLM_MODEL] are not blank, each of the
    pairs [RADARR_URL]/[RADARR_API_KEY] and [SONARR_URL]/[SONARR_API_KEY] is
    given in full or not at all, and at least one of the two managers is
    given; otherwise it raises [ConfigurationError]. *)
Theorem load_config_succeeds_iff py_int fs env :
  (exists s, load_config py_int fs env = inr s) <->
  getenv env "LLM_API_URL" ≠ EmptyString /\
  getenv env "LLM_MODEL" ≠ EmptyString /\
  (getenv env "RADARR_URL" = EmptyString <-> getenv env "RADARR_API_KEY" = EmptyString) /\
  (getenv env "SONARR_URL" = EmptyString <-> getenv env "SONARR_API_KEY" = EmptyString) /\
  (getenv env "RADARR_URL" ≠ EmptyString \/ getenv env "SONARR_URL" ≠ EmptyString).
Proof.
  rewrite <- config_errors_nil. unfold load_config.
  destruct (config_errors env) as [|e errors].
  - split; [done | intros _; by eexists].
  - split; [by intros [s Hs] | done].
Qed.

Lemma rstrip_char_idempotent c s :
  PyText.rstrip_char c (PyText.rstrip_char c s) = PyText.rstrip_char c s.
Proof.
  induction s as [|a s IH]; [done |].
  cbn [PyText.rstrip_char].
  destruct (PyText.rstrip_char c s) as [|b t] eqn:Hr.
  - destruct (Ascii.eqb a c) eqn:Hac; [done |].
    cbn [PyText.rstrip_char]. by rewrite Hac.
  - cbn [PyText.rstrip_char]. cbn [PyText.rstrip_char] in IH. by rewrite IH.
Qed.

Lemma lower_nonempty s : s ≠ EmptyString -> PyStr.lower s ≠ EmptyString.
Proof. by destruct s. Qed.

Lemma str_or_nonempty s fallback :
  fallback ≠ EmptyString -> str_or s fallback ≠ EmptyString.
Proof. intros Hf. unfold str_or. by destruct (decide (s = EmptyString)). Qed.

Lemma str_or_none_nonempty s : str_or_none s ≠ Some EmptyString.
Proof.
  unfold str_or_none. destruct (decide (s = EmptyString)); [done | congruence].
Qed.

Lemma arr_from_env_Some arr_url arr_api_key error c :
  (arr_from_env arr_url arr_api_key error).1 = Some c ->
  url c = PyText.rstrip_char "/"%char arr_url /\ api_key c = arr_api_key /\
  arr_url ≠ EmptyString /\ arr_api_key ≠ EmptyString.
Proof.
  unfold arr_from_env. repeat case_bool_decide; simpl; try done.
  by intros [= <-].
Qed.

(** X14.  What holds of every configuration [load_config] returns: the
    skip tag is not empty and in lower case; at least one manager is
    configured; the URL of a configured manager has no trailing slash and
    its API key is not empty; the model URL and name are not empty; and the
    optional settings ([LLM_API_KEY], [NTFY_URL]) are absent rather than
    empty. *)
Theorem loaded_config_is_normalized py_int fs env s :
  load_config py_int fs env = inr s ->
  skip_tag (engine s) ≠ EmptyString /\
  PyStr.lower (skip_tag (engine s)) = skip_tag (engine s) /\
  (is_Some (radarr (engine s)) \/ is_Some (sonarr (engine s))) /\
  (forall svc c, arr_config svc (engine s) = Some c ->
                 PyText.rstrip_char "/"%char (url c) = url c /\
                 api_key c ≠ EmptyString) /\
  llm_api_url s ≠ EmptyString /\ llm_model s ≠ EmptyString /\
  llm_api_key s ≠ Some EmptyString /\ ntfy_url s ≠ Some EmptyString /\
  ntfy_topic s ≠ EmptyString.
Proof.
  intros Hload.
  destruct (load_config_inr _ _ _ _ Hload)
    as (Herr & Hskip & Hradarr & Hsonarr & Hntfy & Htopic & Hurl & Hmodel & Hkey).
  apply config_errors_nil in Herr as (Hu & Hm & Hr & Hs & Hone).
  rewrite Hskip, Hurl, Hmodel, Hkey, Hntfy, Htopic.
  split; [by apply lower_nonempty, str_or_nonempty |].
  split; [apply lower_idempotent |].
  split.
  { rewrite Hradarr, Hsonarr. unfold arr_from_env.
    destruct Hone as [Hone | Hone]; [left | right].
    - rewrite !bool_decide_eq_true_2; [by eexists | tauto | done].
    - rewrite !bool_decide_eq_true_2; [by eexists | tauto | done]. }
  split.
  { intros svc c Hc.
    assert (exists arr_url arr_api_key,
               (arr_from_env arr_url arr_api_key EmptyString).1 = Some c)
      as (arr_url & arr_api_key & Hfrom).
    { destruct svc; simpl in Hc; [rewrite Hradarr in Hc | rewrite Hsonarr in Hc];
        eauto. }
    apply arr_from_env_Some in Hfrom as (-> & -> & _ & Hk).
    split; [apply rstrip_char_idempotent | exact Hk]. }
  split; [exact Hu |]. split; [exact Hm |].
  split; [apply str_or_none_nonempty |].
  split; [apply str_or_none_nonempty |].
  by apply str_or_nonempty.
Qed.

Lemma loaded_config_is_normalized_witness :
  skip_tag (engine SampleArr.settings) ≠ EmptyString /\
  PyStr.lower (skip_tag (engine SampleArr.settings)) = skip_tag (engine SampleArr.settings) /\
  (is_Some (radarr (engine SampleArr.settings)) \/
   is_Some (sonarr (engine SampleArr.settings))) /\
  (forall svc c, arr_config svc (engine SampleArr.settings) = Some c ->
                 PyText.rstrip_char "/"%char (url c) = url c /\
                 api_key c ≠ EmptyString) /\
  llm_api_url SampleArr.settings ≠ EmptyString /\
  llm_model SampleArr.settings ≠ EmptyString /\
  llm_api_key SampleArr.settings ≠ Some EmptyString /\
  ntfy_url SampleArr.settings ≠ Some EmptyString /\
  ntfy_topic SampleArr.settings ≠ EmptyString.
Proof.
  apply (loaded_config_is_normalized SampleArr.py_int SampleArr.fs SampleArr.env
           SampleArr.settings).
  vm_compute. reflexivity.
Defined.

(** X15.  Reloading the prompts of a loaded configuration gives what a
    fresh start would give on the disk as it is now, with the environment
    the configuration was loaded from: the prompt table is rebuilt from
    nothing, every other setting is kept, and the environment of the moment
    is not read. *)
Theorem reload_equals_fresh_load py_int fs fs' env env' s :
  load_config py_int fs env = inr s ->
  reload_prompts py_int fs' (Some s) env' = load_config py_int fs' env.
Proof.
  unfold reload_prompts, load_config.
  destruct (config_errors env) as [|e errors]; [| discriminate].
  intros [= <-]. reflexivity.
Qed.

Lemma reload_equals_fresh_load_witness :
  reload_prompts SampleArr.py_int SampleArr.fs_later (Some SampleArr.settings) ∅ =
  load_config SampleArr.py_int SampleArr.fs_later SampleArr.env.
Proof.
  apply (reload_equals_fresh_load SampleArr.py_int SampleArr.fs SampleArr.fs_later
           SampleArr.env ∅ SampleArr.settings).
  vm_compute. reflexivity.
Defined.

Lemma load_profiles_untouched es acc key :
  (forall e p, e ∈ es -> ~ provides e key p) ->
  foldl load_profile acc es !! key = acc !! key.
Proof.
  revert acc. induction es as [|e es IH]; intros acc Hnone; [done |].
  simpl. rewrite IH.
  - unfold load_profile.
    destruct (entry_isdir e) eqn:Hd; [| done].
    destruct (_load_system_prompt e) as [q|] eqn:Hq; [| done].
    destruct (decide (PyStr.lower (entry_name e) = key)) as [Hk|Hk].
    + destruct (Hnone e q); [left | done].
    + by rewrite lookup_insert_ne.
  - intros e' p Hin. apply Hnone. by right.
Qed.

(** X16.  When several profile directories of a service have the same
    name up to letter case, the one listed last with a usable [system.txt]
    provides the prompt: later entries overwrite earlier ones. *)
Theorem last_listed_directory_wins (cfg : Config) pd svc before e after
    profile_name p :
  service_prompts cfg = load_service_prompts (Some pd) ->
  service_listing (Some pd) (service_name svc) = Some (before ++ e :: after) ->
  provides e (PyStr.strip (PyStr.lower profile_name)) p ->
  (forall e' p', e' ∈ after ->
                 ~ provides e' (PyStr.strip (PyStr.lower profile_name)) p') ->
  get_system_prompt_for_profile cfg (service_name svc) profile_name = Some p.
Proof.
  intros Hcfg Hlist (Hd & Hq & Hk) Hafter.
  unfold get_system_prompt_for_profile. cbv zeta. rewrite Hcfg.
  assert (PyStr.strip (PyStr.lower (service_name svc)) = service_name svc) as ->
    by by destruct svc.
  rewrite load_service_prompts_lookup, Hlist. unfold load_service.
  rewrite foldl_app. cbn [foldl].
  rewrite load_profiles_untouched by exact Hafter.
  unfold load_profile. by rewrite Hd, Hq, Hk, lookup_insert_eq.
Qed.

Lemma last_listed_directory_wins_witness :
  get_system_prompt_for_profile
    {| radarr := None; sonarr := None;
       service_prompts :=
         load_service_prompts
           (Some {| radarr_dir :=
                      Some [ {| entry_name := "HD-1080p"; entry_isdir := true;
                                entry_system_txt := Some "first" |};
                             {| entry_name := "hd-1080P"; entry_isdir := true;
                                entry_system_txt := Some "second" |};
                             {| entry_name := "HD-1080P"; entry_isdir := true;
                                entry_system_txt := Some "  " |} ];
                    sonarr_dir := None |});
       dry_run := false; skip_tag := "no-ai" |}
    (service_name Radarr) "HD-1080p" = Some "second".
Proof.
  apply (last_listed_directory_wins _
           {| radarr_dir :=
                Some [ {| entry_name := "HD-1080p"; entry_isdir := true;
                          entry_system_txt := Some "first" |};
                       {| entry_name := "hd-1080P"; entry_isdir := true;
                          entry_system_txt := Some "second" |};
                       {| entry_name := "HD-1080P"; entry_isdir := true;
                          entry_system_txt := Some "  " |} ];
              sonarr_dir := None |}
           Radarr
           [ {| entry_name := "HD-1080p"; entry_isdir := true;
                entry_system_txt := Some "first" |} ]
           {| entry_name := "hd-1080P"; entry_isdir := true;
              entry_system_txt := Some "second" |}
           [ {| entry_name := "HD-1080P"; entry_isdir := true;
                entry_system_txt := Some "  " |} ]).
  - reflexivity.
  - reflexivity.
  - by repeat split.
  - intros e' p' [-> | []%elem_of_nil]%elem_of_cons (_ & Hq & _). discriminate Hq.
Defined.

(* ===================================================================== *)
(** ** Properties of the notifications                                   *)
(* ===================================================================== *)

(** X17.  What becomes of the notifications of a webhook request under a
    loaded configuration.  With a blank [NTFY_URL] nothing is posted.
    Otherwise each one is posted to [NTFY_URL] without its trailing
    slashes, under the topic [NTFY_TOPIC] ("arr-llm-release-picker" when
    blank); a failure goes out with priority 1 and the tag "warning", an
    override with priority 3 and the tag of the service. *)
Theorem handler_notifications_delivered py_int fs py_repr env s svc w body ev :
  load_config py_int fs env = inr s ->
  ev ∈ (webhook_override py_repr svc (engine s) w body).2 ->
  is_notification ev = true ->
  (getenv env "NTFY_URL" = EmptyString -> deliver s ev = None) /\
  (getenv env "NTFY_URL" ≠ EmptyString ->
   exists post,
     deliver s ev = Some post /\
     post_url post = PyText.rstrip_char "/"%char (getenv env "NTFY_URL") /\
     post_topic post = str_or (getenv env "NTFY_TOPIC") "arr-llm-release-picker" /\
     post_priority post = (if is_failure_notification ev then 1 else 3) /\
     post_tags post =
       Some [if is_failure_notification ev then "warning" else override_tag svc]).
Proof.
  intros Hload Hin Hnote.
  destruct (load_config_inr _ _ _ _ Hload)
    as (_ & _ & _ & _ & Hntfy & Htopic & _).
  destruct (webhook_override_trace py_repr svc (engine s) w body)
    as (t_lookup & t_model & t_note & Ht & Hlookup & Hmodel & Hshape & _).
  rewrite Ht in Hin.
  assert (ev ∈ t_note) as Hev.
  { apply elem_of_app in Hin as [Hin | Hin].
    - destruct Hlookup as [-> | [[id ->] | [id ->]]];
        repeat (apply elem_of_cons in Hin as [-> | Hin]; [discriminate |]);
        by apply elem_of_nil in Hin.
    - apply elem_of_app in Hin as [Hin | Hin]; [| exact Hin].
      destruct Hmodel as [-> | (sp & mt & pn & rs & ->)];
        repeat (apply elem_of_cons in Hin as [-> | Hin]; [discriminate |]);
        by apply elem_of_nil in Hin. }
  assert ((exists title message,
              ev = FailureNotification title message "low" ["warning"]) \/
          (exists title profile_name selected_title bytes why,
              ev = OverrideNotification title profile_name selected_title bytes why
                     [override_tag svc])) as Hkind.
  { destruct Hshape as [-> | [(ti & msg & ->) | (ti & pn & st & b & why & ->)]].
    - by apply elem_of_nil in Hev.
    - apply list_elem_of_singleton in Hev. left. eauto.
    - apply list_elem_of_singleton in Hev. right. eauto 10. }
  split.
  - intros Hblank.
    assert (ntfy_url s = None) as Hnone.
    { rewrite Hntfy, Hblank. reflexivity. }
    destruct Hkind as [(ti & msg & ->) | (ti & pn & st & b & why & ->)];
      unfold deliver, send_notification; by rewrite Hnone.
  - intros Hset.
    assert (ntfy_url s = Some (getenv env "NTFY_URL")) as Hsome.
    { rewrite Hntfy. unfold str_or_none.
      by destruct (decide (getenv env "NTFY_URL" = EmptyString)). }
    destruct Hkind as [(ti & msg & ->) | (ti & pn & st & b & why & ->)];
      unfold deliver, send_notification; rewrite Hsome;
      (destruct (decide (getenv env "NTFY_URL" = EmptyString)); [done |]);
      eexists; (split; [reflexivity |]); simpl; by rewrite Htopic.
Qed.

Lemma handler_notifications_delivered_witness :
  exists post,
    deliver SampleArr.settings
      (OverrideNotification "AI Override: Movie" "HD-1080p" "Movie.2020.1080p.BluRay"
         10737418240 (JStr "better source") ["movie_camera"]) = Some post /\
    post_url post = "https://ntfy.example" /\
    post_topic post = "arr-llm-release-picker" /\
    post_priority post = 3 /\
    post_tags post = Some ["movie_camera"].
Proof.
  destruct (handler_notifications_delivered SampleArr.py_int SampleArr.fs Sample.repr
              SampleArr.env SampleArr.settings Radarr
              (Sample.world "HD-1080p" (Sample.answer 2 "better source"))
              (Some (Sample.payload [Sample.rel_a; Sample.rel_b]))
              (OverrideNotification "AI Override: Movie" "HD-1080p"
                 "Movie.2020.1080p.BluRay" 10737418240 (JStr "better source")
                 ["movie_camera"])) as [_ Hposted].
  - vm_compute. reflexivity.
  - vm_compute. right. right. right. left.
  - reflexivity.
  - apply Hposted. vm_compute. discriminate.
Defined.

(* ===================================================================== *)
(** ** Properties of a decoded answer                                    *)
(* ===================================================================== *)




(** X19.  A start-up that fails for want of a manager says so only when
    nothing else is wrong: the message of the [ConfigurationError] is
    "Configuration errors: At least one of RADARR or SONARR must be
    configured" exactly when [LLM_API_URL] and [LLM_MODEL] are given and the
    four manager variables are all blank. *)
Theorem no_manager_is_reported_alone py_int fs env msg :
  load_config py_int fs env = inl msg ->
  (msg = "Configuration errors: At least one of RADARR or SONARR must be configured" <->
   getenv env "LLM_API_URL" ≠ EmptyString /\ getenv env "LLM_MODEL" ≠ EmptyString /\
   getenv env "RADARR_URL" = EmptyString /\ getenv env "RADARR_API_KEY" = EmptyString /\
   getenv env "SONARR_URL" = EmptyString /\ getenv env "SONARR_API_KEY" = EmptyString).
Proof.
  unfold load_config, config_errors, arr_from_env.
  generalize (getenv env "LLM_API_URL") (getenv env "LLM_MODEL")
             (getenv env "RADARR_URL") (getenv env "RADARR_API_KEY")
             (getenv env "SONARR_URL") (getenv env "SONARR_API_KEY").
  intros u m ru rk su sk.
  destruct (decide (u = EmptyString)) as [Hu|Hu];
    destruct (decide (m = EmptyString)) as [Hm|Hm];
    destruct (decide (ru = EmptyString)) as [Hru|Hru];
    destruct (decide (rk = EmptyString)) as [Hrk|Hrk];
    destruct (decide (su = EmptyString)) as [Hsu|Hsu];
    destruct (decide (sk = EmptyString)) as [Hsk|Hsk];
    rewrite ?(bool_decide_eq_true_2 (ru ≠ EmptyString)),
            ?(bool_decide_eq_true_2 (rk ≠ EmptyString)),
            ?(bool_decide_eq_true_2 (su ≠ EmptyString)),
            ?(bool_decide_eq_true_2 (sk ≠ EmptyString)),
            ?(bool_decide_eq_false_2 (ru ≠ EmptyString)),
            ?(bool_decide_eq_false_2 (rk ≠ EmptyString)),
            ?(bool_decide_eq_false_2 (su ≠ EmptyString)),
            ?(bool_decide_eq_false_2 (sk ≠ EmptyString)) by tauto;
    cbn -[String.append PyText.join]; intros Hmsg; try discriminate Hmsg;
    injection Hmsg as <-; vm_compute PyText.join;
    (split; [intros Heq; try discriminate Heq | intros (? & ? & ? & ? & ? & ?)]);
    try done; by repeat split.
Qed.

Lemma no_manager_is_reported_alone_witness :
  "Configuration errors: At least one of RADARR or SONARR must be configured" =
  "Configuration errors: At least one of RADARR or SONARR must be configured" <->
  getenv {[ "LLM_API_URL" := "http://llm:8080/v1"; "LLM_MODEL" := "gpt-4o" ]}
    "LLM_API_URL" ≠ EmptyString /\
  getenv {[ "LLM_API_URL" := "http://llm:8080/v1"; "LLM_MODEL" := "gpt-4o" ]}
    "LLM_MODEL" ≠ EmptyString /\
  getenv {[ "LLM_API_URL" := "http://llm:8080/v1"; "LLM_MODEL" := "gpt-4o" ]}
    "RADARR_URL" = EmptyString /\
  getenv {[ "LLM_API_URL" := "http://llm:8080/v1"; "LLM_MODEL" := "gpt-4o" ]}
    "RADARR_API_KEY" = EmptyString /\
  getenv {[ "LLM_API_URL" := "http://llm:8080/v1"; "LLM_MODEL" := "gpt-4o" ]}
    "SONARR_URL" = EmptyString /\
  getenv {[ "LLM_API_URL" := "http://llm:8080/v1"; "LLM_MODEL" := "gpt-4o" ]}
    "SONARR_API_KEY" = EmptyString.
Proof.
  apply (no_manager_is_reported_alone SampleArr.py_int SampleArr.fs
           {[ "LLM_API_URL" := "http://llm:8080/v1"; "LLM_MODEL" := "gpt-4o" ]}).
  vm_compute. reflexivity.
Defined.

(* ===================================================================== *)
(** ** Properties of the handlers in full                                *)
(* ===================================================================== *)

















(** The same request with a size a float can hold is answered. *)
Example renderable_request_is_answered :
  Full.webhook_radarr_override Sample.repr Sample.cfg
    (Sample.world "HD-1080p" (Sample.answer 1 "smallest"))
    (Some (Sample.payload [Sample.rel_a; Sample.rel_b])) =
  (Full.Returns
     ({| approved := true; selectedReleaseGuid := None;
         reason := JStr "AI confirms default: smallest" |}, 200),
   [TagsLookup Radarr 7; ProfileLookup Radarr 7;
    ModelCall "Prefer small releases." "Movie" "HD-1080p" [Sample.rel_a; Sample.rel_b]]).
Proof. vm_compute. reflexivity. Qed.

